(** * BCAI Python SDK demo: a shallow embedding of [examples/python_sdk_demo.py]

    The development follows the Python file: the client [BCaiClient] with
    [submit_job] and [_simulate_job_execution], the job description
    [TrainingJob] with [to_vm_instructions], the record [JobResult], and, from
    the federated demo, [federated_averaging] and [run_federated_learning].

    Conventions.
    - A Python [dict] with string keys is a [gmap string _]; a Python [list]
      is a [list].
    - A value annotated [Any] is a [py_any].
    - A call that may raise yields a [result]; code that prints runs in the
      state-and-exception monad [io] over the text written so far.
    - A tensor has a kind of element type, a shape and entries.  The numbers
      it holds and the reduction [torch.mean] applies to them are an
      interface, [Torch.Arithmetic]: nothing is assumed of the floating-point
      reduction beyond the mean of a single number being that number. *)

From Stdlib Require Import ZArith QArith Qcanon Qcabs Lia.
From stdpp Require Import base numbers list list_numbers strings gmap pretty.

Local Open Scope Z_scope.

(** ** Exceptions and results *)

Inductive exn : Type :=
| IndexError
| KeyError (key : string)
| RuntimeError
| TypeError
| OverflowError.

Inductive result (A : Type) : Type :=
| Ok (a : A)
| Raise (e : exn).

Arguments Ok {A} a.
Arguments Raise {A} e.

#[global] Instance result_ret : MRet result := @Ok.
#[global] Instance result_bind : MBind result :=
  λ A B f r, match r with Ok a => f a | Raise e => Raise e end.

Definition is_ok {A} (r : result A) : bool :=
  match r with Ok _ => true | Raise _ => false end.

(** ** The part of [torch] that [federated_averaging] calls *)

Module Torch.

(** The element types, as far as [torch.mean] tells them apart: floating
    point (or complex) against integer (or bool). *)
Inductive dtype : Type :=
| Floating
| Integral.

(** Stacking tensors of different element types promotes them to a common
    one, which is integral only when all are. *)
Definition promote (a b : dtype) : dtype :=
  match a, b with
  | Integral, Integral => Integral
  | _, _ => Floating
  end.

(** A tensor over numbers [Num]: element type, shape, and the entries in
    row-major order.  Tensors are dense and on one device, as a
    [state_dict] of one process has them. *)
Record tensor (Num : Type) : Type := {
  dtype_of : dtype;
  shape : list nat;
  data : list Num;
}.

Arguments dtype_of {Num} _.
Arguments shape {Num} _.
Arguments data {Num} _.

(** The numbers tensors hold, with the reduction [torch.mean] applies to the
    values that one entry takes across the stacked tensors.  How a
    floating-point mean sums, rounds and overflows is left to the instance;
    the one law is that the mean of a single number is that number. *)
Class Arithmetic (Num : Type) : Type := {
  reduce_mean : list Num → Num;
  reduce_mean_singleton : ∀ x, reduce_mean [x] = x;
}.

Definition same_shape {Num} (t u : tensor Num) : bool :=
  bool_decide (shape t = shape u).

(** [torch.stack(ts)]: refuses an empty list and tensors of unequal shape.
    The stacked tensor is kept as the list of its rows. *)
Definition stack {Num} (ts : list (tensor Num)) : result (list (tensor Num)) :=
  match ts with
  | [] => Raise RuntimeError
  | t0 :: _ => if forallb (same_shape t0) ts then Ok ts else Raise RuntimeError
  end.

(** The element type of the stacked tensor. *)
Definition stacked_dtype {Num} (rows : list (tensor Num)) : dtype :=
  foldr promote Integral (dtype_of <$> rows).

(** The values of entry [j] down the rows. *)
Definition column {Num} (j : nat) (rows : list (tensor Num)) : list Num :=
  omap (λ r, data r !! j) rows.

(** [torch.mean(stacked, dim=0)]: refuses an integral tensor; otherwise each
    entry of the result is the mean of that entry down the rows. *)
Definition mean_dim0 {Num} `{Arithmetic Num} (rows : list (tensor Num))
  : result (tensor Num) :=
  match rows with
  | [] => Raise RuntimeError
  | r0 :: _ =>
      match stacked_dtype rows with
      | Integral => Raise RuntimeError
      | Floating =>
          Ok {| dtype_of := Floating;
                shape := shape r0;
                data := imap (λ j _, reduce_mean (column j rows)) (data r0) |}
      end
  end.

End Torch.

(** ** [federated_averaging] (lines 308-324) *)

(** A model's [state_dict]: parameter name to tensor. *)
Abbreviation state_dict Num := (gmap string (Torch.tensor Num)).

Section aggregation.

Context {Num : Type} {arith : Torch.Arithmetic Num}.

(** [[client_weights[i][param_name] for i in range(len(client_weights))]] *)
Fixpoint gather (client_weights : list (state_dict Num)) (param_name : string)
  : result (list (Torch.tensor Num)) :=
  match client_weights with
  | [] => Ok []
  | c :: rest =>
      match c !! param_name with
      | None => Raise (KeyError param_name)
      | Some t => ts ← gather rest param_name; Ok (t :: ts)
      end
  end.

(** The body of the loop over [param_names]. *)
Definition average_param (client_weights : list (state_dict Num))
    (param_name : string) : result (Torch.tensor Num) :=
  ts ← gather client_weights param_name;
  stacked_weights ← Torch.stack ts;
  Torch.mean_dim0 stacked_weights.

(** [for param_name in param_names: averaged_weights[param_name] = ...] *)
Fixpoint for_param_names (param_names : list string)
    (body : string → result (Torch.tensor Num)) (averaged_weights : state_dict Num)
  : result (state_dict Num) :=
  match param_names with
  | [] => Ok averaged_weights
  | param_name :: rest =>
      v ← body param_name;
      for_param_names rest body (<[param_name := v]> averaged_weights)
  end.

(** Parameter names come from the first client, [client_weights[0].keys()];
    the keys are visited in the order of [map_to_list], which stands for the
    dict's insertion order (the order only selects which exception is raised
    when several parameters are faulty). *)
Definition federated_averaging (client_weights : list (state_dict Num))
  : result (state_dict Num) :=
  match client_weights with
  | [] => Raise IndexError
  | first :: _ =>
      for_param_names (map_to_list first).*1
        (average_param client_weights) ∅
  end.

(** *** Quantities the statements about aggregation refer to *)

(** The tensors the clients hold for parameter [k]. *)
Definition params (k : string) (client_weights : list (state_dict Num))
  : list (Torch.tensor Num) :=
  omap (.!! k) client_weights.

(** The values the clients hold for entry [j] of parameter [k], in the order
    of the clients. *)
Definition column (client_weights : list (state_dict Num)) (k : string) (j : nat)
  : list Num :=
  Torch.column j (params k client_weights).

(** The aggregate of parameter [k], the first client holding [t0] for it. *)
Definition averaged (client_weights : list (state_dict Num)) (k : string)
    (t0 : Torch.tensor Num) : Torch.tensor Num :=
  {| Torch.dtype_of := Torch.Floating;
     Torch.shape := Torch.shape t0;
     Torch.data :=
       imap (λ j _, Torch.reduce_mean (column client_weights k j))
         (Torch.data t0) |}.

(** The client has parameter [k], with the shape of tensor [t0]. *)
Definition has_param (k : string) (t0 : Torch.tensor Num) (c : state_dict Num)
  : bool :=
  match c !! k with
  | Some t => Torch.same_shape t0 t
  | None => false
  end.

(** The client's tensor for parameter [k] is floating point. *)
Definition param_floating (k : string) (c : state_dict Num) : bool :=
  match c !! k with
  | Some {| Torch.dtype_of := Torch.Floating |} => true
  | _ => false
  end.

(** Parameter [k] can be averaged: every client has it with the shape of
    [t0], and some client has it in floating point. *)
Definition average_ok (k : string) (t0 : Torch.tensor Num)
    (client_weights : list (state_dict Num)) : bool :=
  forallb (has_param k t0) client_weights
  && existsb (param_floating k) client_weights.

(** Every parameter of the first client can be averaged. *)
Definition round_ok (client_weights : list (state_dict Num)) : bool :=
  match client_weights with
  | [] => false
  | first :: _ =>
      forallb (λ kt, average_ok kt.1 kt.2 client_weights) (map_to_list first)
  end.



(** All tensors of the state are floating point. *)
Definition all_floating (c : state_dict Num) : bool :=
  forallb (λ kt : string * Torch.tensor Num,
             match Torch.dtype_of kt.2 with
             | Torch.Floating => true
             | Torch.Integral => false
             end)
    (map_to_list c).

End aggregation.

(** *** Exact arithmetic *)

Definition Qcsum (l : list Qc) : Qc := foldr Qcplus 0%Qc l.

Definition arithmetic_mean (vs : list Qc) : Qc :=
  (Qcsum vs / Qc_of_Z (Z.of_nat (length vs)))%Qc.

(** The rationals with the exact mean: what [torch.mean] computes when no
    rounding occurs. *)
#[global] Instance exact_arithmetic : Torch.Arithmetic Qc := {|
  Torch.reduce_mean := arithmetic_mean;
  Torch.reduce_mean_singleton := λ x,
    eq_trans (f_equal2 Qcdiv (Qcplus_0_r x) Z2Qc_inj_1)
             (right_id 1%Qc Qcdiv x);
|}.


(** ** Values annotated [Any] *)

Inductive py_any : Type :=
| PyNone
| PyBool (b : bool)
| PyInt (z : Z)
| PyFloat (q : Q)
| PyStr (s : string).

(** [d.get(key, fallback)] *)
Definition dict_get {V} (d : gmap string V) (key : string) (fallback : V) : V :=
  default fallback (d !! key).

(** [x + 1]: defined on numbers ([bool] counts as [int]); a [str] or [None]
    operand makes [+] raise. *)
Definition py_add_one (x : py_any) : result py_any :=
  match x with
  | PyInt z => Ok (PyInt (z + 1))
  | PyBool b => Ok (PyInt (Z.b2z b + 1))
  | PyFloat q => Ok (PyFloat (q + 1))
  | PyStr _ | PyNone => Raise TypeError
  end.

(** The bounds of [range] must be integers. *)
Definition py_index (x : py_any) : result Z :=
  match x with
  | PyInt z => Ok z
  | PyBool b => Ok (Z.b2z b)
  | PyFloat _ | PyStr _ | PyNone => Raise TypeError
  end.

(** [range(start, stop)] *)
Definition py_range (start : Z) (stop : py_any) : result (list Z) :=
  stop' ← py_index stop; Ok (seqZ start (stop' - start)).

(** An [int] converts to [float] ([epoch * 0.08]) only below this bound. *)
Definition float_int_limit : Z := 2 ^ 1024 - 2 ^ 970.

Definition int_to_float (z : Z) : result unit :=
  if decide (Z.abs z < float_int_limit) then Ok () else Raise OverflowError.

(** ** Printing code: state (the text written so far) and exceptions *)

(** A printed line.  The progress line of the training loop shows a loss and
    an accuracy computed in floating point from [epoch]; it is kept as the
    epoch it reports. *)
Inductive line : Type :=
| Text (s : string)
| EpochProgress (epoch : Z).

Definition io (A : Type) : Type := list line → list line * result A.

#[global] Instance io_ret : MRet io := λ A a out, (out, Ok a).
#[global] Instance io_bind : MBind io :=
  λ A B f m out,
    match m out with
    | (out', Ok a) => f a out'
    | (out', Raise e) => (out', Raise e)
    end.

Definition print (l : line) : io unit := λ out, (out ++ [l], Ok ()).

Definition lift {A} (r : result A) : io A := λ out, (out, r).

(** [for x in xs: body] *)
Fixpoint for_each {A} (xs : list A) (body : A → io unit) : io unit :=
  match xs with
  | [] => mret ()
  | x :: rest => body x ;; for_each rest body
  end.

(** ** [TrainingJob] (lines 63-100) *)

Record TrainingJob : Type := {
  name : string;
  code : string;
  data_source : string;
  requirements : list string;
  resources : gmap string py_any;
  reward_tokens : Z;
  config : gmap string py_any;
}.

(** [TrainingJob.__init__]: [self.config = config or {}] *)
Definition TrainingJob_init (name code data_source : string)
    (requirements : list string) (resources : gmap string py_any)
    (reward_tokens : Z) (config : option (gmap string py_any)) : TrainingJob :=
  {| name := name; code := code; data_source := data_source;
     requirements := requirements; resources := resources;
     reward_tokens := reward_tokens; config := default ∅ config |}.

(** The ["constraints"] entry of an instruction. *)
Record Constraints : Type := {
  max_memory_mb : py_any;
  max_execution_time_ms : Z;
  allowed_imports : list string;
}.

(** One VM instruction (the dict built by [to_vm_instructions]). *)
Record Instruction : Type := {
  instr_type : string;
  instr_code : string;
  input_tensors : list (string * Z);
  output_tensors : list (string * Z);
  constraints : Constraints;
}.

Definition to_vm_instructions (self : TrainingJob) : io (list Instruction) :=
  mret [ {| instr_type := "PythonExecute";
            instr_code := code self;
            input_tensors := [("data", 1)];
            output_tensors := [("model", 2)];
            constraints :=
              {| max_memory_mb := dict_get (resources self) "memory_mb" (PyInt 2048);
                 max_execution_time_ms := 300000;
                 allowed_imports := requirements self |} |} ].

(** ** [JobResult] (lines 102-125) *)

Record JobResult : Type := {
  job_id : string;
  success : bool;
  model_hash : option string;
  training_metrics : gmap string py_any;
  gas_used : Z;
  reward_earned : Z;
  error_message : option string;
}.

(** [JobResult.__init__], with its defaults for the optional arguments. *)
Definition JobResult_init (job_id : string) (success : bool)
    (model_hash : option string)
    (training_metrics : option (gmap string py_any))
    (gas_used reward_earned : option Z) (error_message : option string)
  : JobResult :=
  {| job_id := job_id; success := success; model_hash := model_hash;
     training_metrics := default ∅ training_metrics;
     gas_used := default 0 gas_used;
     reward_earned := default 0 reward_earned;
     error_message := error_message |}.

(** ** [BCaiClient] (lines 14-61) *)

Record BCaiClient : Type := {
  node_url : string;
  session_id : option string;
}.

Definition BCaiClient_init (node_url : option string) : io BCaiClient :=
  let url := default "ws://localhost:8080" node_url in
  print (Text ("Connecting to BCAI node at " +:+ url));;
  mret {| node_url := url; session_id := None |}.

(** The body of the loop that prints the simulated progress. *)
Definition report_epoch (epoch : Z) : io unit :=
  lift (int_to_float epoch);;
  print (EpochProgress epoch).

Definition _simulate_job_execution (self : BCaiClient) (job : TrainingJob)
  : io (gmap string string) :=
  print (Text "  Code validation: PASSED");;
  print (Text "  Resource allocation: 8GB GPU memory, 16 CPU cores");;
  print (Text "  Executing training...");;
  stop ← lift (py_add_one (dict_get (config job) "epochs" (PyInt 10)));
  epochs ← lift (py_range 1 stop);
  for_each epochs report_epoch;;
  print (Text "  Training completed successfully!");;
  mret {[ "status" := "completed" ]}.

(** The value the job gives for ["epochs"], 10 when it gives none. *)
Definition epochs_value (job : TrainingJob) : py_any :=
  dict_get (config job) "epochs" (PyInt 10).

(** The jobs on which the simulated training loop runs to its end: the
    epochs value is an integer, small enough for the float arithmetic of the
    loop body. *)
Definition epochs_runnable (job : TrainingJob) : bool :=
  match epochs_value job with
  | PyInt z => bool_decide (z < float_int_limit)
  | PyBool _ => true
  | PyFloat _ | PyStr _ | PyNone => false
  end.

(** The number of passes of the loop, [range(1, epochs + 1)]. *)
Definition epoch_count (job : TrainingJob) : Z :=
  match epochs_value job with
  | PyInt z => z
  | PyBool b => Z.b2z b
  | PyFloat _ | PyStr _ | PyNone => 0
  end.

(** What [submit_job] prints for a job it completes. *)
Definition submission_output (job : TrainingJob) : list line :=
  [ Text ("Submitting job: " +:+ name job);
    Text "  Code validation: PASSED";
    Text "  Resource allocation: 8GB GPU memory, 16 CPU cores";
    Text "  Executing training..." ]
  ++ (EpochProgress <$> seqZ 1 (epoch_count job))
  ++ [ Text "  Training completed successfully!" ].

Section submission.

(** Python's built-in [hash] on strings: fixed within a run of the
    interpreter, otherwise unspecified. *)
Variable hash : string → Z.

Definition submit_job (self : BCaiClient) (job : TrainingJob) : io JobResult :=
  print (Text ("Submitting job: " +:+ name job));;
  instructions ← to_vm_instructions job;
  result ← _simulate_job_execution self job;
  mret (JobResult_init
          ("job_" +:+ pretty (hash (name job)))
          true
          (Some "abc123def456")
          (Some (<[ "final_loss" := PyFloat (15 # 100) ]>
                 (<[ "accuracy" := PyFloat (92 # 100) ]>
                 (<[ "epochs" := dict_get (config job) "epochs" (PyInt 10) ]>
                 (<[ "execution_time_ms" := PyInt 5000 ]> ∅)))))
          (Some 1000)
          (Some (reward_tokens job))
          None).

End submission.

(** The two jobs the demo submits (lines 216-236 and 365-381), for any text of
    their training source. *)
Definition transformer_job (training_code : string) : TrainingJob :=
  TrainingJob_init "transformer-language-model" training_code
    "huggingface://wikitext-103"
    ["torch>=2.0.0"; "transformers>=4.35.0"; "datasets>=2.14.0"]
    (<[ "gpu_memory_gb" := PyInt 16 ]>
     (<[ "cpu_cores" := PyInt 8 ]> (<[ "memory_gb" := PyInt 32 ]> ∅)))
    1500
    (Some (<[ "epochs" := PyInt 10 ]>
           (<[ "batch_size" := PyInt 32 ]>
           (<[ "learning_rate" := PyFloat (1 # 10000) ]> ∅)))).

Definition federated_job (federated_code : string) : TrainingJob :=
  TrainingJob_init "federated-mnist-classifier" federated_code
    "distributed://mnist-shards"
    ["torch>=2.0.0"; "numpy>=1.21.0"]
    (<[ "gpu_memory_gb" := PyInt 8 ]>
     (<[ "cpu_cores" := PyInt 4 ]> (<[ "memory_gb" := PyInt 16 ]> ∅)))
    2000
    (Some (<[ "num_clients" := PyInt 5 ]>
           (<[ "num_rounds" := PyInt 10 ]>
           (<[ "local_epochs" := PyInt 3 ]> ∅)))).

(** Helpers for the statements on jobs. *)

(** The job with another declared envelope and other requirements. *)
Definition with_envelope (job : TrainingJob) (resources' : gmap string py_any)
    (requirements' : list string) : TrainingJob :=
  {| name := name job; code := code job; data_source := data_source job;
     requirements := requirements'; resources := resources';
     reward_tokens := reward_tokens job; config := config job |}.

(** The constraints records in the instructions compiled for a job. *)
Definition compiled_constraints (job : TrainingJob) : result (list Constraints) :=
  match (to_vm_instructions job []).2 with
  | Ok instructions => Ok (constraints <$> instructions)
  | Raise e => Raise e
  end.

(** The result [submit_job] builds for a job whose execution completes. *)
Definition completed_result (hash : string → Z) (job : TrainingJob) : JobResult :=
  {| job_id := "job_" +:+ pretty (hash (name job));
     success := true;
     model_hash := Some "abc123def456";
     training_metrics :=
       <[ "final_loss" := PyFloat (15 # 100) ]>
       (<[ "accuracy" := PyFloat (92 # 100) ]>
       (<[ "epochs" := epochs_value job ]>
       (<[ "execution_time_ms" := PyInt 5000 ]> ∅)));
     gas_used := 1000;
     reward_earned := reward_tokens job;
     error_message := None |}.

(** ** The ledger of the specification *)

Module Ledger.

(** Modelled from the spec: the status of a worker update ([ok], [timeout],
    [failed(reason)]) of the data model; the Python file has no such type. *)
Inductive worker_status : Type :=
| ok
| timeout
| failed (reason : string).

(** Modelled from the spec: the [RoundRecord] of the data model (round index,
    worker statuses, aggregated state checksum, resource consumed, wall-clock
    duration); the Python file keeps no per-round record. *)
Record RoundRecord : Type := {
  round_index : nat;
  statuses : list worker_status;
  state_checksum : string;
  resource_consumed : Z;
  wall_clock_duration : Z;
}.

(** Modelled from the spec: the ledger state, which the Python file does not
    have: for each job id, the rounds charged so far, by round index. *)
Abbreviation ledger := (gmap string (gmap nat RoundRecord)).

Definition rounds_of (job_id : string) (l : ledger) : gmap nat RoundRecord :=
  default ∅ (l !! job_id).

(** Modelled from the spec: [charge(job_id, round_record)], missing from the
    Python file: it records the round under the job, and re-charging a round
    index already recorded for the job is a no-op. *)
Definition charge (job_id : string) (round_record : RoundRecord) (l : ledger)
  : ledger :=
  match rounds_of job_id l !! round_index round_record with
  | Some _ => l
  | None =>
      <[ job_id := <[ round_index round_record := round_record ]>
                     (rounds_of job_id l) ]> l
  end.

(** Modelled from the spec: the total resource a job has been charged, the
    quantity [settle] compares with the declared envelope. *)
Definition total_consumed (job_id : string) (l : ledger) : Z :=
  map_fold (λ _ r acc, resource_consumed r + acc) 0 (rounds_of job_id l).

(** Modelled from the spec: the terms a job is settled on, none of which the
    Python file has: the base reward (the job's reward-token budget), the
    number of rounds configured, the declared resource envelope, and the rate
    of the penalty, which the specification only says is proportional to the
    resource consumed beyond the envelope. *)
Record JobTerms : Type := {
  base_reward : Z;
  rounds_configured : nat;
  declared_envelope : Z;
  penalty_rate : Qc;
}.

(** Modelled from the spec: the rounds completed successfully are the rounds
    charged, the scheduler charging the ledger after each successful
    aggregation. *)
Definition rounds_completed (job_id : string) (l : ledger) : nat :=
  size (rounds_of job_id l).

(** Modelled from the spec: [completion_fraction], rounds completed
    successfully divided by rounds configured; the Python file counts no
    rounds. *)
Definition completion_fraction (terms : JobTerms) (job_id : string) (l : ledger)
  : Qc :=
  (Qc_of_Z (Z.of_nat (rounds_completed job_id l))
   / Qc_of_Z (Z.of_nat (rounds_configured terms)))%Qc.

(** Modelled from the spec: [resource_penalty], proportional to the resource
    consumed beyond the declared envelope, zero within it; the Python file
    applies no penalty. *)
Definition resource_penalty (terms : JobTerms) (job_id : string) (l : ledger)
  : Qc :=
  (penalty_rate terms
   * Qc_of_Z (Z.max 0 (total_consumed job_id l - declared_envelope terms)))%Qc.

(** Modelled from the spec: the amount before the floor,
    [base_reward * completion_fraction - resource_penalty]. *)
Definition reward_formula (terms : JobTerms) (job_id : string) (l : ledger)
  : Qc :=
  (Qc_of_Z (base_reward terms) * completion_fraction terms job_id l
   - resource_penalty terms job_id l)%Qc.

(** Modelled from the spec: [settle(job_id)], missing from the Python file:
    the amount of the formula, floored at zero. *)
Definition settle (terms : JobTerms) (job_id : string) (l : ledger) : Qc :=
  if decide (0 ≤ reward_formula terms job_id l)%Qc
  then reward_formula terms job_id l
  else 0%Qc.

End Ledger.

(** ** Concrete inputs used in the statements below *)

(** Two updates of one scalar parameter, as in the scenario of the
    specification: [{"a": 2.0}] and [{"a": 4.0}]. *)
Definition float_scalar (x : Qc) : Torch.tensor Qc :=
  {| Torch.dtype_of := Torch.Floating; Torch.shape := []; Torch.data := [x] |}.
Definition update_a2 : state_dict Qc := {[ "a" := float_scalar (Qc_of_Z 2) ]}.

(** An update holding one integer tensor, as the step counter of a
    normalisation layer is. *)
Definition update_counter : state_dict Qc :=
  {[ "num_batches_tracked" :=
       {| Torch.dtype_of := Torch.Integral; Torch.shape := [];
          Torch.data := [Qc_of_Z 7] |} ]}.

(** A job that requires a module outside a given allow-list. *)
Definition allow_list : list string := ["torch>=2.0.0"; "numpy>=1.21.0"].
Definition unlisted_job : TrainingJob :=
  TrainingJob_init "unlisted" "import os" "local://data" ["os"] ∅ 10 None.

(** Two different jobs under one name. *)
Definition twin_job_a : TrainingJob :=
  TrainingJob_init "twin" "x = 1" "local://a" [] ∅ 10 None.
Definition twin_job_b : TrainingJob :=
  TrainingJob_init "twin" "x = 2" "local://b" ["numpy"] ∅ 20 None.

(** A job whose configuration gives the number of epochs as text. *)
Definition text_epochs_job : TrainingJob :=
  TrainingJob_init "text-epochs" "pass" "local://data" [] ∅ 10
    (Some {[ "epochs" := PyStr "ten" ]}).

(** A job that asks for more epochs than an [int] converts to [float]. *)
Definition huge_epochs_job : TrainingJob :=
  TrainingJob_init "huge-epochs" "pass" "local://data" [] ∅ 10
    (Some {[ "epochs" := PyInt (2 ^ 1024) ]}).

(** A stand-in for [hash], used to run the code on concrete jobs. *)
Definition length_hash (s : string) : Z := Z.of_nat (String.length s).

Definition local_client : BCaiClient :=
  {| node_url := "ws://localhost:8080"; session_id := None |}.

(** Two records of round 0 of one job, differing in what they report. *)
Definition round0 : Ledger.RoundRecord :=
  {| Ledger.round_index := 0; Ledger.statuses := [Ledger.ok; Ledger.ok];
     Ledger.state_checksum := "c0"; Ledger.resource_consumed := 5;
     Ledger.wall_clock_duration := 10 |}.
Definition round0_retry : Ledger.RoundRecord :=
  {| Ledger.round_index := 0; Ledger.statuses := [Ledger.ok; Ledger.timeout];
     Ledger.state_checksum := "c1"; Ledger.resource_consumed := 7;
     Ledger.wall_clock_duration := 12 |}.


(** The terms of a job of four rounds, and a ledger in which three of them
    have been charged, 22 units in all against an envelope of 20. *)
Definition four_round_terms : Ledger.JobTerms :=
  {| Ledger.base_reward := 100; Ledger.rounds_configured := 4;
     Ledger.declared_envelope := 20; Ledger.penalty_rate := Qc_of_Z 2 |}.

Definition charged_round (index : nat) (consumed : Z) : Ledger.RoundRecord :=
  {| Ledger.round_index := index; Ledger.statuses := [Ledger.ok; Ledger.ok];
     Ledger.state_checksum := "c"; Ledger.resource_consumed := consumed;
     Ledger.wall_clock_duration := 10 |}.

Definition three_rounds_charged : Ledger.ledger :=
  Ledger.charge "job_1" (charged_round 2 10)
    (Ledger.charge "job_1" (charged_round 1 7)
       (Ledger.charge "job_1" (charged_round 0 5) ∅)).
(** ** Further notions for the statements on the code *)

(** A client's weights cut down to the parameter names of [first]. *)
Definition restrict_to {Num} (first c : state_dict Num) : state_dict Num :=
  filter (λ kt, is_Some (first !! kt.1)) c.

(** Further concrete inputs. *)

(** An update with a second parameter, an update with none, and an update
    whose parameter is a vector of two entries. *)
Definition update_a4_b1 : state_dict Qc :=
  <[ "a" := float_scalar (Qc_of_Z 4) ]> {[ "b" := float_scalar (Qc_of_Z 1) ]}.
Definition update_none : state_dict Qc := ∅.
Definition update_a_vector : state_dict Qc :=
  {[ "a" := {| Torch.dtype_of := Torch.Floating; Torch.shape := [2%nat];
               Torch.data := [Qc_of_Z 1; Qc_of_Z 2] |} ]}.

(** The four lines [submit_job] prints before the training loop. *)
Definition submission_header (job : TrainingJob) : list line :=
  [ Text ("Submitting job: " +:+ name job);
    Text "  Code validation: PASSED";
    Text "  Resource allocation: 8GB GPU memory, 16 CPU cores";
    Text "  Executing training..." ].

(** The epochs value is not a number [range] accepts. *)
Definition epochs_not_integer (job : TrainingJob) : bool :=
  match epochs_value job with
  | PyInt _ | PyBool _ => false
  | PyFloat _ | PyStr _ | PyNone => true
  end.

(** A job configured for no epoch at all, and one for a negative number. *)
Definition zero_epochs_job : TrainingJob :=
  TrainingJob_init "zero-epochs" "pass" "local://data" [] ∅ 10
    (Some {[ "epochs" := PyInt 0 ]}).

(** ** [JobResult.__repr__] (lines 123-125) *)

Section representation.

(** The text Python gives for a [float] in an f-string (its shortest
    round-trip decimal); the file only relies on it being some text. *)
Variable float_str : Q → string.

(** [f"{x}"] for a value annotated [Any]. *)
Definition py_str (x : py_any) : string :=
  match x with
  | PyNone => "None"
  | PyBool true => "True"
  | PyBool false => "False"
  | PyInt z => pretty z
  | PyFloat q => float_str q
  | PyStr s => s
  end.

Definition JobResult_repr (self : JobResult) : string :=
  let status := if success self then "SUCCESS" else "FAILED" in
  "JobResult(id=" +:+ job_id self +:+ ", status=" +:+ status
  +:+ ", accuracy="
  +:+ py_str (dict_get (training_metrics self) "accuracy" (PyStr "N/A"))
  +:+ ")".

End representation.

(** A stand-in for the float formatting, used to run the code. *)
Definition ratio_str (q : Q) : string :=
  pretty (Qnum q) +:+ "/" +:+ pretty (Zpos (Qden q)).

(** ** [run_federated_learning] (lines 326-358) *)

(** Two states have the same topology: the same parameter names, with
    tensors of the same element types and shapes. *)
Definition same_topology {Num} (a b : state_dict Num) : Prop :=
  ∀ k, (λ t, (Torch.dtype_of t, Torch.shape t)) <$> a !! k
       = (λ t, (Torch.dtype_of t, Torch.shape t)) <$> b !! k.

(** The character written by the escape [\n]. *)
Definition newline : Ascii.ascii := Ascii.ascii_of_nat 10.

Section federated_run.

Context {Num : Type} {arith : Torch.Arithmetic Num}.

(** What the run takes from [torch] and from the random initialisation is
    kept abstract: the state of a [FederatedClient] (model, optimizer, local
    data), the clients and the global model as first constructed, and
    [FederatedClient.local_training], which updates the client and returns
    its model's weights, or raises. *)
Variable client : Type.
Variable initial_client : nat → client.
Variable initial_weights : state_dict Num.
Variable local_training :
  client → state_dict Num → nat → result (client * state_dict Num).

(** The text of a float to three decimals ([{accuracy:.3f}]). *)
Variable fixed3 : Q → string.

(** [for i, client in enumerate(clients): ...], from index [i]. *)
Fixpoint collect_updates (i : nat) (clients : list client)
    (global_weights : state_dict Num)
  : io (list client * list (state_dict Num)) :=
  match clients with
  | [] => mret ([], [])
  | c :: rest =>
      trained ← lift (local_training c global_weights 3);
      print (Text ("  Client " +:+ pretty (i + 1)%nat
                   +:+ " completed local training"));;
      others ← collect_updates (S i) rest global_weights;
      mret (trained.1 :: others.1, trained.2 :: others.2)
  end.

(** The body of the loop over the rounds. *)
Definition federated_round (num_rounds round_num : nat)
    (state : list client * state_dict Num)
  : io (list client * state_dict Num) :=
  print (Text (String newline ("Round " +:+ pretty (round_num + 1)%nat
                             +:+ "/" +:+ pretty num_rounds)));;
  collected ← collect_updates 0 state.1 state.2;
  global_weights ← lift (federated_averaging collected.2);
  print (Text "  Global model updated via federated averaging");;
  print (Text ("  Global model accuracy: "
               +:+ fixed3 (Qplus (85 # 100)
                             (Qmult (inject_Z (Z.of_nat round_num)) (1 # 100)))));;
  mret (collected.1, global_weights).

(** [for round_num in range(num_rounds): ...] *)
Fixpoint for_rounds (num_rounds : nat) (rounds : list nat)
    (state : list client * state_dict Num)
  : io (list client * state_dict Num) :=
  match rounds with
  | [] => mret state
  | round_num :: rest =>
      state' ← federated_round num_rounds round_num state;
      for_rounds num_rounds rest state'
  end.

Definition run_federated_learning : io (state_dict Num) :=
  let num_clients := 5%nat in
  let num_rounds := 10%nat in
  let clients := initial_client <$> seq 0 num_clients in
  let global_weights := initial_weights in
  print (Text ("Starting federated learning with " +:+ pretty num_clients
               +:+ " clients..."));;
  final ← for_rounds num_rounds (seq 0 num_rounds) (clients, global_weights);
  mret final.2.

End federated_run.

(** Stand-ins used to run the rounds: a client is a counter of its training
    calls, and training returns the weights it was given. *)
Definition echo_training (c : nat) (g : state_dict Qc) (epochs : nat)
  : result (nat * state_dict Qc) :=
  Ok (S c, g).

Definition failing_training (c : nat) (g : state_dict Qc) (epochs : nat)
  : result (nat * state_dict Qc) :=
  if (c =? 2)%nat then Raise RuntimeError else Ok (c, g).

(** The line printed once client [i] (counted from 0) has trained. *)
Definition client_line (i : nat) : line :=
  Text ("  Client " +:+ pretty (i + 1)%nat +:+ " completed local training").

(** ** Basic facts on the aggregation *)

Section aggregation_facts.

Context {Num : Type} {arith : Torch.Arithmetic Num}.

Lemma for_param_names_ok (names : list string)
    (body : string → result (Torch.tensor Num)) (g : string → Torch.tensor Num)
    (acc : state_dict Num) :
  (∀ k, k ∈ names → body k = Ok (g k)) →
  ∃ m, for_param_names names body acc = Ok m ∧
       ∀ k, m !! k = if decide (k ∈ names) then Some (g k) else acc !! k.
Proof.
  revert acc. induction names as [|n names IH]; intros acc Hbody; simpl.
  - exists acc. split; [done|]. intros k.
    destruct (decide (k ∈ [])) as [Hk|]; [|done]. by apply elem_of_nil in Hk.
  - rewrite (Hbody n) by left. simpl.
    destruct (IH (<[n:=g n]> acc)) as (m & Hm & Hlook).
    { intros k Hk. apply Hbody. by right. }
    exists m. split; [done|]. intros k. rewrite Hlook.
    destruct (decide (k ∈ names)) as [Hin|Hnin].
    + rewrite decide_True; [done|by right].
    + destruct (decide (k = n)) as [->|Hne].
      * rewrite decide_True by left. by rewrite lookup_insert_eq.
      * rewrite decide_False.
        { by rewrite lookup_insert_ne. }
        intros [?|?]%elem_of_cons; done.
Qed.

Lemma for_param_names_inv (names : list string)
    (body : string → result (Torch.tensor Num)) (acc m : state_dict Num) :
  for_param_names names body acc = Ok m →
  ∀ k, k ∈ names → is_ok (body k) = true.
Proof.
  revert acc. induction names as [|n names IH]; intros acc Hm k Hk.
  - by apply elem_of_nil in Hk.
  - simpl in Hm. destruct (body n) as [v|e] eqn:Hn; [|done]. simpl in Hm.
    apply elem_of_cons in Hk as [->|Hk]; [by rewrite Hn|]. by eapply IH.
Qed.

Lemma for_param_names_raise (names : list string)
    (body : string → result (Torch.tensor Num)) (acc : state_dict Num) (e : exn) :
  for_param_names names body acc = Raise e →
  ∃ k, k ∈ names ∧ body k = Raise e.
Proof.
  revert acc. induction names as [|n names IH]; intros acc He; [done|].
  simpl in He. destruct (body n) as [v|e'] eqn:Hn; simpl in He.
  - destruct (IH _ He) as (k & Hk & Hbody). exists k. split; [by right|done].
  - exists n. split; [left|congruence].
Qed.

Lemma for_param_names_ext (names : list string)
    (body body' : string → result (Torch.tensor Num)) (acc : state_dict Num) :
  (∀ k, k ∈ names → body k = body' k) →
  for_param_names names body acc = for_param_names names body' acc.
Proof.
  revert acc. induction names as [|n names IH]; intros acc Hext; [done|].
  simpl. rewrite <- (Hext n) by left.
  destruct (body n); simpl; [|done]. apply IH. intros k Hk. apply Hext. by right.
Qed.

(** *** Gathering a parameter over the clients *)

Lemma gather_ok (cw : list (state_dict Num)) (k : string) :
  Forall (λ c, is_Some (c !! k)) cw → gather cw k = Ok (params k cw).
Proof.
  induction 1 as [|c cw [t Hc] _ IH]; [done|].
  simpl. unfold params in *. simpl. rewrite Hc. by rewrite IH.
Qed.

Lemma gather_inv (cw : list (state_dict Num)) (k : string)
    (ts : list (Torch.tensor Num)) :
  gather cw k = Ok ts → ts = params k cw ∧ Forall (λ c, is_Some (c !! k)) cw.
Proof.
  revert ts. induction cw as [|c cw IH]; intros ts Hts; simpl in Hts.
  - by inversion Hts.
  - destruct (c !! k) as [t|] eqn:Hc; [|done].
    destruct (gather cw k) as [ts'|] eqn:Hg; [|done]. simpl in Hts.
    destruct (IH ts' eq_refl) as [-> Hall]. inversion Hts; subst ts.
    split.
    + unfold params. simpl. by rewrite Hc.
    + constructor; [by rewrite Hc|done].
Qed.

Lemma gather_raise_cause (cw : list (state_dict Num)) (k : string) (e : exn) :
  gather cw k = Raise e → e = KeyError k ∧ ∃ c, c ∈ cw ∧ c !! k = None.
Proof.
  induction cw as [|c cw IH]; simpl; [done|].
  destruct (c !! k) eqn:Hc.
  - destruct (gather cw k); simpl; [done|]. intros [= <-].
    destruct (IH eq_refl) as (-> & c' & Hin & Hnone).
    split; [done|]. exists c'. split; [by right|done].
  - intros [= <-]. split; [done|]. exists c. split; [left|done].
Qed.

Lemma gather_ext (cw cw' : list (state_dict Num)) (k : string) :
  Forall2 (λ c c', c !! k = c' !! k) cw cw' → gather cw k = gather cw' k.
Proof.
  induction 1 as [|c c' cw cw' Hc _ IH]; simpl; [done|].
  rewrite <- Hc. destruct (c !! k); [|done]. by rewrite IH.
Qed.

Lemma params_elem (k : string) (cw : list (state_dict Num)) (t : Torch.tensor Num) :
  t ∈ params k cw ↔ ∃ c, c ∈ cw ∧ c !! k = Some t.
Proof. unfold params. rewrite list_elem_of_omap. naive_solver. Qed.

(** *** Stacking and averaging the rows *)

Lemma same_shape_eq (t u : Torch.tensor Num) :
  Torch.same_shape t u = true ↔ Torch.shape t = Torch.shape u.
Proof. unfold Torch.same_shape. apply bool_decide_eq_true. Qed.

Lemma stack_ok (t0 : Torch.tensor Num) (ts : list (Torch.tensor Num)) :
  Forall (λ t, Torch.shape t0 = Torch.shape t) (t0 :: ts) →
  Torch.stack (t0 :: ts) = Ok (t0 :: ts).
Proof.
  intros Hts. unfold Torch.stack.
  assert (forallb (Torch.same_shape t0) (t0 :: ts) = true) as ->; [|done].
  apply forallb_forall. intros t Ht. apply same_shape_eq.
  rewrite Forall_forall in Hts. apply Hts. by apply list_elem_of_In.
Qed.

Lemma stack_inv (ts ts' : list (Torch.tensor Num)) :
  Torch.stack ts = Ok ts' →
  ts' = ts ∧ ∃ t0 rest, ts = t0 :: rest ∧
    Forall (λ t, Torch.shape t0 = Torch.shape t) ts.
Proof.
  unfold Torch.stack. destruct ts as [|t0 rest]; [done|].
  destruct (forallb _ _) eqn:Hall; [|done]. intros [= <-].
  split; [done|]. exists t0, rest. split; [done|].
  rewrite forallb_forall in Hall. apply Forall_forall.
  intros t Ht. apply same_shape_eq, Hall. by apply list_elem_of_In.
Qed.

Lemma stack_raise_cause (t0 : Torch.tensor Num) (ts : list (Torch.tensor Num))
    (e : exn) :
  Torch.stack (t0 :: ts) = Raise e →
  e = RuntimeError ∧ ∃ t, t ∈ ts ∧ Torch.shape t ≠ Torch.shape t0.
Proof.
  unfold Torch.stack. destruct (forallb _ _) eqn:Hall; [done|].
  intros [= <-]. split; [done|].
  apply not_true_iff_false in Hall.
  destruct (decide (Forall (λ t : Torch.tensor Num,
                              Torch.shape t = Torch.shape t0) ts))
    as [Hts|Hts].
  - exfalso. apply Hall. apply forallb_forall. intros t Ht.
    apply list_elem_of_In in Ht. apply same_shape_eq.
    apply elem_of_cons in Ht as [->|Ht]; [done|].
    rewrite Forall_forall in Hts. symmetry. by apply Hts.
  - apply not_Forall_Exists in Hts; [|apply _].
    apply Exists_exists in Hts as (t & Ht & Hne). by exists t.
Qed.

Lemma promote_floating (a b : Torch.dtype) :
  Torch.promote a b = Torch.Floating ↔ a = Torch.Floating ∨ b = Torch.Floating.
Proof. destruct a, b; simpl; intuition discriminate. Qed.

Lemma stacked_dtype_cons (r : Torch.tensor Num) (rows : list (Torch.tensor Num)) :
  Torch.stacked_dtype (r :: rows)
  = Torch.promote (Torch.dtype_of r) (Torch.stacked_dtype rows).
Proof. reflexivity. Qed.

Lemma stacked_dtype_floating (rows : list (Torch.tensor Num)) :
  Torch.stacked_dtype rows = Torch.Floating ↔
  ∃ r, r ∈ rows ∧ Torch.dtype_of r = Torch.Floating.
Proof.
  induction rows as [|r rows IH].
  - split; [done|]. intros (r & Hr & _). by apply elem_of_nil in Hr.
  - rewrite stacked_dtype_cons, promote_floating, IH. split.
    + intros [Hr|(r' & Hin & Hfl)].
      * exists r. split; [left|done].
      * exists r'. split; [by right|done].
    + intros (r' & [->|Hin]%elem_of_cons & Hfl); [by left|].
      right. by exists r'.
Qed.

Lemma stacked_dtype_integral (rows : list (Torch.tensor Num)) :
  Torch.stacked_dtype rows = Torch.Integral ↔
  Forall (λ r, Torch.dtype_of r = Torch.Integral) rows.
Proof.
  split.
  - intros Hint. apply Forall_forall. intros r Hr.
    destruct (Torch.dtype_of r) eqn:Hdt; [|done].
    assert (Torch.stacked_dtype rows = Torch.Floating) as Hfl
      by (apply stacked_dtype_floating; by exists r).
    congruence.
  - intros Hall. destruct (Torch.stacked_dtype rows) eqn:Hdt; [|done].
    apply stacked_dtype_floating in Hdt as (r & Hr & Hfl).
    rewrite Forall_forall in Hall. specialize (Hall r Hr). congruence.
Qed.

Lemma param_floating_dtype (k : string) (c : state_dict Num) :
  param_floating k c = true ↔
  ∃ t, c !! k = Some t ∧ Torch.dtype_of t = Torch.Floating.
Proof.
  unfold param_floating. destruct (c !! k) as [[[] sh d]|]; simpl.
  - split; [|done]. intros _. by eexists.
  - split; [done|]. intros (t & [= <-] & ?). done.
  - split; [done|]. intros (t & ? & _). done.
Qed.

Lemma has_param_shape (k : string) (t0 : Torch.tensor Num) (c : state_dict Num) :
  has_param k t0 c = true ↔
  ∃ t, c !! k = Some t ∧ Torch.shape t0 = Torch.shape t.
Proof.
  unfold has_param. destruct (c !! k) as [t|].
  - rewrite same_shape_eq. split; [by eexists|]. by intros (t' & [= <-] & ?).
  - split; [done|]. intros (t & ? & _). done.
Qed.

(** *** The loop body *)

Lemma average_ok_rows (k : string) (t0 : Torch.tensor Num)
    (first : state_dict Num) (rest : list (state_dict Num)) :
  first !! k = Some t0 →
  average_ok k t0 (first :: rest) = true →
  params k (first :: rest) = t0 :: params k rest ∧
  Forall (λ c, is_Some (c !! k)) (first :: rest) ∧
  Forall (λ t, Torch.shape t0 = Torch.shape t) (t0 :: params k rest) ∧
  Torch.stacked_dtype (t0 :: params k rest) = Torch.Floating.
Proof.
  intros Hk [Hall Hex]%andb_true_iff.
  rewrite forallb_forall in Hall.
  assert (params k (first :: rest) = t0 :: params k rest) as Hrows.
  { unfold params. simpl. by rewrite Hk. }
  split_and!; [done| | |].
  - apply Forall_forall. intros c Hc.
    destruct (proj1 (has_param_shape k t0 c)) as (t & -> & _); [|done].
    apply Hall. by apply list_elem_of_In.
  - rewrite <- Hrows. apply Forall_forall. intros t Ht.
    apply params_elem in Ht as (c & Hc & Hct).
    destruct (proj1 (has_param_shape k t0 c)) as (t' & Hct' & Hsh).
    { apply Hall. by apply list_elem_of_In. }
    congruence.
  - rewrite <- Hrows. apply stacked_dtype_floating.
    apply existsb_exists in Hex as (c & Hc & Hfl).
    apply param_floating_dtype in Hfl as (t & Hct & Hfl).
    exists t. split; [|done]. apply params_elem. exists c.
    split; [by apply list_elem_of_In|done].
Qed.

Lemma average_param_ok (k : string) (t0 : Torch.tensor Num)
    (first : state_dict Num) (rest : list (state_dict Num)) :
  first !! k = Some t0 →
  average_ok k t0 (first :: rest) = true →
  average_param (first :: rest) k = Ok (averaged (first :: rest) k t0).
Proof.
  intros Hk Hok.
  destruct (average_ok_rows k t0 first rest Hk Hok) as (Hrows & Hsome & Hshape & Hdt).
  unfold average_param. rewrite (gather_ok _ _ Hsome), Hrows.
  unfold mbind at 1, result_bind. rewrite stack_ok by done.
  unfold mbind, result_bind, Torch.mean_dim0. rewrite Hdt.
  unfold averaged, column. by rewrite Hrows.
Qed.

Lemma average_param_inv (k : string) (t0 : Torch.tensor Num)
    (first : state_dict Num) (rest : list (state_dict Num)) :
  first !! k = Some t0 →
  is_ok (average_param (first :: rest) k) = true →
  average_ok k t0 (first :: rest) = true.
Proof.
  unfold average_param. intros Hk Hok.
  destruct (gather (first :: rest) k) as [ts|] eqn:Hg; [|done]. simpl in Hok.
  destruct (gather_inv _ _ _ Hg) as [-> Hall].
  assert (params k (first :: rest) = t0 :: params k rest) as Hrows.
  { unfold params. simpl. by rewrite Hk. }
  rewrite Hrows in Hok.
  destruct (Torch.stack _) as [st|] eqn:Hst; [|done]. simpl in Hok.
  destruct (stack_inv _ _ Hst) as (-> & t1 & rows & [= <- <-] & Hshape).
  unfold Torch.mean_dim0 in Hok.
  destruct (Torch.stacked_dtype _) eqn:Hdt; [|done].
  apply stacked_dtype_floating in Hdt as (r & Hr & Hfl).
  rewrite <- Hrows in Hr, Hshape.
  unfold average_ok. apply andb_true_iff. split.
  - apply forallb_forall. intros c Hc. apply list_elem_of_In in Hc.
    apply has_param_shape. rewrite Forall_forall in Hall.
    destruct (Hall c Hc) as [t Hct]. exists t. split; [done|].
    rewrite Forall_forall in Hshape. apply Hshape.
    apply params_elem. by exists c.
  - apply params_elem in Hr as (c & Hc & Hct).
    apply existsb_exists. exists c. split; [by apply list_elem_of_In|].
    apply param_floating_dtype. by exists r.
Qed.

Lemma round_ok_params (first : state_dict Num) (rest : list (state_dict Num))
    (k : string) (t0 : Torch.tensor Num) :
  round_ok (first :: rest) = true → first !! k = Some t0 →
  average_ok k t0 (first :: rest) = true.
Proof.
  unfold round_ok. intros Hok Hk.
  rewrite forallb_forall in Hok.
  apply (Hok (k, t0)). apply list_elem_of_In. by apply elem_of_map_to_list.
Qed.

(** On a well-formed round the aggregation returns, and what it returns is
    known parameter by parameter. *)
Lemma federated_averaging_ok (first : state_dict Num) (rest : list (state_dict Num)) :
  round_ok (first :: rest) = true →
  ∃ m, federated_averaging (first :: rest) = Ok m ∧
       ∀ k, m !! k = averaged (first :: rest) k <$> first !! k.
Proof.
  intros Hok. unfold federated_averaging.
  destruct (for_param_names_ok (map_to_list first).*1
              (average_param (first :: rest))
              (λ k, averaged (first :: rest) k
                      (default {| Torch.dtype_of := Torch.Floating;
                                  Torch.shape := []; Torch.data := [] |}
                         (first !! k))) ∅)
    as (m & Hm & Hlook).
  { intros k Hk. apply list_elem_of_fmap in Hk as ([k' t0] & -> & Hin).
    apply elem_of_map_to_list in Hin. cbn [fst]. rewrite Hin. cbn [default].
    apply average_param_ok; [done|]. by apply round_ok_params. }
  exists m. split; [done|]. intros k. rewrite Hlook.
  destruct (first !! k) as [t0|] eqn:Hk; simpl.
  - rewrite decide_True; [done|]. apply list_elem_of_fmap.
    exists (k, t0). split; [done|]. by apply elem_of_map_to_list.
  - rewrite decide_False; [done|].
    intros ([k' t0] & -> & Hin)%list_elem_of_fmap.
    apply elem_of_map_to_list in Hin. simpl in Hk. congruence.
Qed.

(** The aggregation returns exactly on the well-formed rounds. *)
Lemma federated_averaging_is_ok (cw : list (state_dict Num)) :
  is_ok (federated_averaging cw) = round_ok cw.
Proof.
  destruct cw as [|first rest]; [done|].
  destruct (round_ok (first :: rest)) eqn:Hok.
  - destruct (federated_averaging_ok _ _ Hok) as (m & -> & _). done.
  - destruct (federated_averaging (first :: rest)) as [m|e] eqn:Hm; [|done].
    exfalso. apply not_true_iff_false in Hok. apply Hok.
    unfold round_ok. apply forallb_forall. intros [k t0] Hin.
    apply list_elem_of_In, elem_of_map_to_list in Hin. cbn [fst snd].
    apply average_param_inv; [done|].
    eapply for_param_names_inv; [exact Hm|].
    apply list_elem_of_fmap. exists (k, t0). split; [done|].
    by apply elem_of_map_to_list.
Qed.

Lemma mean_dim0_raise (rows : list (Torch.tensor Num)) (e : exn) :
  Torch.mean_dim0 rows = Raise e → e = RuntimeError.
Proof.
  unfold Torch.mean_dim0. destruct rows; [congruence|].
  destruct (Torch.stacked_dtype _); congruence.
Qed.

Lemma average_param_raise (cw : list (state_dict Num)) (k : string) (e : exn) :
  average_param cw k = Raise e → e = KeyError k ∨ e = RuntimeError.
Proof.
  unfold average_param. destruct (gather cw k) as [ts|] eqn:Hg; simpl.
  - destruct ts as [|t0 ts].
    + simpl. intros [= <-]. by right.
    + destruct (Torch.stack (t0 :: ts)) eqn:Hst; simpl.
      * intros He. right. by eapply mean_dim0_raise.
      * intros [= <-]. right. by apply stack_raise_cause in Hst as [-> _].
  - intros [= <-]. left. by apply gather_raise_cause in Hg as [-> _].
Qed.

(** With at least one client, a failure is a missing parameter or a refusal
    of [torch], never a lack of clients. *)
Lemma federated_averaging_raise (cw : list (state_dict Num)) (e : exn) :
  federated_averaging cw = Raise e →
  (cw = [] ∧ e = IndexError) ∨
  (cw ≠ [] ∧ (e = RuntimeError ∨ ∃ k, e = KeyError k)).
Proof.
  destruct cw as [|first rest]; simpl.
  - intros [= <-]. by left.
  - intros (k & _ & Hk)%for_param_names_raise. right. split; [done|].
    apply average_param_raise in Hk as [->| ->]; eauto.
Qed.

End aggregation_facts.

(** ** Running printing code *)

Lemma io_bind_ok {A B} (m : io A) (f : A → io B) (out out' : list line) (a : A) :
  m out = (out', Ok a) → (m ≫= f) out = f a out'.
Proof. intros H. unfold mbind, io_bind. by rewrite H. Qed.

Lemma io_bind_raise {A B} (m : io A) (f : A → io B) (out out' : list line)
    (e : exn) :
  m out = (out', Raise e) → (m ≫= f) out = (out', Raise e).
Proof. intros H. unfold mbind, io_bind. by rewrite H. Qed.

Lemma report_epoch_ok (epoch : Z) (out : list line) :
  Z.abs epoch < float_int_limit →
  report_epoch epoch out = (out ++ [EpochProgress epoch], Ok ()).
Proof.
  intros H. unfold report_epoch, int_to_float, lift, mbind, io_bind, print.
  by rewrite decide_True.
Qed.

Lemma report_epoch_raise (epoch : Z) (out : list line) :
  ¬ Z.abs epoch < float_int_limit →
  report_epoch epoch out = (out, Raise OverflowError).
Proof.
  intros H. unfold report_epoch, int_to_float, lift, mbind, io_bind, print.
  by rewrite decide_False.
Qed.

Lemma for_each_report_ok (epochs : list Z) (out : list line) :
  Forall (λ e, Z.abs e < float_int_limit) epochs →
  for_each epochs report_epoch out = (out ++ (EpochProgress <$> epochs), Ok ()).
Proof.
  intros H. revert out. induction H as [|e es He _ IH]; intros out; simpl.
  - by rewrite app_nil_r.
  - rewrite (io_bind_ok _ _ _ _ _ (report_epoch_ok e out He)).
    rewrite IH. by rewrite <- app_assoc.
Qed.

Lemma for_each_report_raise (epochs : list Z) (out : list line) :
  Exists (λ e, ¬ Z.abs e < float_int_limit) epochs →
  ∃ out', for_each epochs report_epoch out = (out', Raise OverflowError).
Proof.
  intros H. revert out. induction H as [e es He|e es _ IH]; intros out; simpl.
  - exists out. by apply io_bind_raise, report_epoch_raise.
  - destruct (decide (Z.abs e < float_int_limit)) as [He|He].
    + rewrite (io_bind_ok _ _ _ _ _ (report_epoch_ok e out He)). apply IH.
    + exists out. by apply io_bind_raise, report_epoch_raise.
Qed.

Lemma float_int_limit_pos : 1 < float_int_limit.
Proof. by vm_compute. Qed.

Lemma seqZ_below (n : Z) :
  n < float_int_limit → Forall (λ e, Z.abs e < float_int_limit) (seqZ 1 n).
Proof.
  intros Hn. apply Forall_forall. intros e He.
  apply list_elem_of_lookup in He as [i Hi].
  apply lookup_seqZ in Hi as [-> Hi]. lia.
Qed.

Lemma seqZ_reaches (n : Z) :
  ¬ n < float_int_limit →
  Exists (λ e, ¬ Z.abs e < float_int_limit) (seqZ 1 n).
Proof.
  intros Hn. pose proof float_int_limit_pos as Hpos.
  apply Exists_exists. exists float_int_limit. split; [|lia].
  apply list_elem_of_lookup. exists (Z.to_nat (float_int_limit - 1)).
  apply lookup_seqZ. lia.
Qed.

(** The simulated execution on a runnable job. *)
Lemma simulate_ok (self : BCaiClient) (job : TrainingJob) (out : list line) :
  epochs_runnable job = true →
  _simulate_job_execution self job out
  = (out ++ [ Text "  Code validation: PASSED";
              Text "  Resource allocation: 8GB GPU memory, 16 CPU cores";
              Text "  Executing training..." ]
         ++ (EpochProgress <$> seqZ 1 (epoch_count job))
         ++ [ Text "  Training completed successfully!" ],
     Ok {[ "status" := "completed" ]}).
Proof.
  unfold epochs_runnable, epoch_count, _simulate_job_execution.
  fold (epochs_value job). intros Hrun.
  assert (∃ n, py_add_one (epochs_value job) = Ok (PyInt (n + 1)) ∧
               n < float_int_limit ∧
               match epochs_value job with
               | PyInt z => z | PyBool b => Z.b2z b | _ => 0 end = n)
    as (n & Hadd & Hn & ->).
  { pose proof float_int_limit_pos.
    destruct (epochs_value job) as [|b|z|q|s]; try done; simpl.
    - exists (Z.b2z b). split_and!; [done| |done]. destruct b; simpl; lia.
    - exists z. split_and!; [done| |done]. by apply bool_decide_eq_true in Hrun. }
  unfold mbind at 1 2 3, io_bind, print at 1 2 3. simpl.
  unfold mbind at 1, io_bind, lift at 1. rewrite Hadd.
  unfold mbind at 1, io_bind, lift at 1, py_range. simpl.
  replace (n + 1 - 1) with n by lia.
  unfold mbind at 1, io_bind.
  rewrite for_each_report_ok by by apply seqZ_below.
  unfold mbind, io_bind, print, mret, io_ret.
  f_equal. rewrite <- !app_assoc. done.
Qed.

(** The simulated execution on any other job raises. *)
Lemma simulate_raise (self : BCaiClient) (job : TrainingJob) (out : list line) :
  epochs_runnable job = false →
  ∃ out' e, _simulate_job_execution self job out = (out', Raise e) ∧
    e = match epochs_value job with
        | PyInt _ => OverflowError
        | _ => TypeError
        end.
Proof.
  unfold epochs_runnable, _simulate_job_execution.
  fold (epochs_value job). intros Hrun.
  unfold mbind at 1 2 3, io_bind, print at 1 2 3. simpl.
  destruct (epochs_value job) as [|b|z|q|s]; try done.
  - by eexists _, _.
  - apply bool_decide_eq_false in Hrun.
    unfold mbind at 1, io_bind, lift at 1. simpl.
    unfold mbind at 1, io_bind, lift at 1, py_range. simpl.
    replace (z + 1 - 1) with z by lia.
    edestruct (for_each_report_raise (seqZ 1 z)) as [out' Hout'];
      [by apply seqZ_reaches|].
    unfold mbind at 1, io_bind. rewrite Hout'. by eexists _, _.
  - by eexists _, _.
  - by eexists _, _.
Qed.

(** ** [submit_job] as a whole *)

Lemma submit_job_runs (hash : string → Z) (self : BCaiClient)
    (job : TrainingJob) (out : list line) :
  epochs_runnable job = true →
  submit_job hash self job out
  = (out ++ submission_output job, Ok (completed_result hash job)).
Proof.
  intros Hrun. unfold submit_job.
  unfold mbind at 1, io_bind, print at 1.
  unfold mbind at 1, io_bind, to_vm_instructions, mret at 1, io_ret at 1.
  unfold mbind at 1, io_bind. rewrite (simulate_ok _ _ _ Hrun).
  unfold mret, io_ret, submission_output, JobResult_init, completed_result,
    epochs_value. simpl.
  by rewrite <- app_assoc.
Qed.

Lemma submit_job_raises (hash : string → Z) (self : BCaiClient)
    (job : TrainingJob) (out : list line) :
  epochs_runnable job = false →
  ∃ out', submit_job hash self job out
          = (out', Raise match epochs_value job with
                         | PyInt _ => OverflowError
                         | _ => TypeError
                         end).
Proof.
  intros Hrun. unfold submit_job.
  unfold mbind at 1, io_bind, print at 1.
  unfold mbind at 1, io_bind, to_vm_instructions, mret at 1, io_ret at 1.
  unfold mbind at 1, io_bind.
  destruct (simulate_raise self job
              (out ++ [Text ("Submitting job: " +:+ name job)]) Hrun)
    as (out' & e & -> & ->).
  by exists out'.
Qed.

(** A returned result comes from a runnable job. *)
Lemma submit_job_returns (hash : string → Z) (self : BCaiClient)
    (job : TrainingJob) (out out' : list line) (r : JobResult) :
  submit_job hash self job out = (out', Ok r) → epochs_runnable job = true.
Proof.
  intros Hr. destruct (epochs_runnable job) eqn:Hrun; [done|].
  destruct (submit_job_raises hash self job out Hrun) as [out'' Hraise].
  congruence.
Qed.

(** The envelope and the requirements have no part in a submission. *)
Lemma submit_job_envelope (hash : string → Z) (self : BCaiClient)
    (job : TrainingJob) (resources' : gmap string py_any)
    (requirements' : list string) (out : list line) :
  submit_job hash self (with_envelope job resources' requirements') out
  = submit_job hash self job out.
Proof. reflexivity. Qed.

(** ** The aggregation on small rounds *)

Section small_rounds.

Context {Num : Type} {arith : Torch.Arithmetic Num}.

Lemma all_floating_lookup (c : state_dict Num) (k : string) (t : Torch.tensor Num) :
  all_floating c = true → c !! k = Some t →
  Torch.dtype_of t = Torch.Floating.
Proof.
  unfold all_floating. intros Hall Hk. rewrite forallb_forall in Hall.
  specialize (Hall (k, t)). simpl in Hall.
  destruct (Torch.dtype_of t); [done|].
  discriminate Hall. apply list_elem_of_In. by apply elem_of_map_to_list.
Qed.

Lemma round_ok_singleton (c : state_dict Num) :
  all_floating c = true → round_ok [c] = true.
Proof.
  intros Hall. unfold round_ok. apply forallb_forall. intros [k t] Hin.
  apply list_elem_of_In, elem_of_map_to_list in Hin. simpl.
  unfold average_ok. simpl. rewrite !andb_true_r, orb_false_r.
  apply andb_true_iff. split.
  - apply has_param_shape. by exists t.
  - apply param_floating_dtype. exists t. split; [done|].
    by eapply all_floating_lookup.
Qed.

Lemma column_singleton (c : state_dict Num) (k : string) (t : Torch.tensor Num)
    (j : nat) (x : Num) :
  c !! k = Some t → Torch.data t !! j = Some x → column [c] k j = [x].
Proof.
  intros Hk Hj. unfold column, params, Torch.column. simpl.
  rewrite Hk. simpl. by rewrite Hj.
Qed.

Lemma averaged_singleton (c : state_dict Num) (k : string) (t : Torch.tensor Num) :
  c !! k = Some t → Torch.dtype_of t = Torch.Floating →
  averaged [c] k t = t.
Proof.
  intros Hk Hfl. unfold averaged. destruct t as [dt sh d]. simpl in *.
  subst dt. f_equal. apply list_eq. intros j.
  rewrite list_lookup_imap. destruct (d !! j) as [x|] eqn:Hj; [|done].
  simpl. f_equal. rewrite (column_singleton c k _ j x Hk Hj).
  apply Torch.reduce_mean_singleton.
Qed.

Lemma federated_averaging_one (c : state_dict Num) :
  all_floating c = true → federated_averaging [c] = Ok c.
Proof.
  intros Hall.
  destruct (federated_averaging_ok c [] (round_ok_singleton c Hall))
    as (m & -> & Hm).
  f_equal. apply map_eq. intros k. rewrite Hm.
  destruct (c !! k) as [t|] eqn:Hk; [|done]. simpl. f_equal.
  apply averaged_singleton; [done|]. by eapply all_floating_lookup.
Qed.

(** An integral parameter stops the aggregation of a single update. *)
Lemma federated_averaging_one_integral (c : state_dict Num) (k : string)
    (t : Torch.tensor Num) :
  c !! k = Some t → Torch.dtype_of t = Torch.Integral →
  ∃ e, federated_averaging [c] = Raise e ∧ e = RuntimeError.
Proof.
  intros Hk Hint.
  destruct (federated_averaging [c]) as [m|e] eqn:Hfed.
  - exfalso.
    assert (is_ok (federated_averaging [c]) = true) as Hok by by rewrite Hfed.
    rewrite federated_averaging_is_ok in Hok.
    pose proof (round_ok_params c [] k t Hok Hk) as Hav.
    unfold average_ok in Hav. apply andb_true_iff in Hav as [_ Hex].
    simpl in Hex. rewrite orb_false_r in Hex.
    apply param_floating_dtype in Hex as (t' & Hk' & Hfl). congruence.
  - exists e. split; [done|]. pose proof Hfed as Hcause.
    apply federated_averaging_raise in Hcause as [[? _]|[_ [?|[k' ->]]]];
      [done|done|].
    exfalso. unfold federated_averaging in Hfed.
    apply for_param_names_raise in Hfed as (k1 & Hk1 & Hbody).
    apply list_elem_of_fmap in Hk1 as ([k2 t2] & -> & Hin).
    apply elem_of_map_to_list in Hin. simpl in Hbody.
    unfold average_param in Hbody.
    rewrite (gather_ok [c] k2) in Hbody
      by (constructor; [by rewrite Hin|constructor]).
    unfold params in Hbody. simpl in Hbody. rewrite Hin in Hbody.
    simpl in Hbody.
    unfold Torch.stack in Hbody. simpl in Hbody.
    assert (Torch.same_shape t2 t2 = true) as Hsame by by apply same_shape_eq.
    rewrite Hsame in Hbody. simpl in Hbody.
    by destruct (Torch.stacked_dtype [t2]).
Qed.

End small_rounds.






(** ** Equalities between computed rationals *)

Lemma Qc_this_eq (x y : Qc) : this x = this y → x = y.
Proof. intros H. apply Qc_is_canon. by rewrite H. Qed.



Section aggregation_claims.

Context {Num : Type} {arith : Torch.Arithmetic Num}.



Lemma forallb_false {A} (f : A → bool) (l : list A) :
  forallb f l = false → ∃ x, x ∈ l ∧ f x = false.
Proof.
  induction l as [|x l IH]; simpl; [done|].
  destruct (f x) eqn:Hx; simpl.
  - intros (y & Hy & Hfy)%IH. exists y. split; [by right|done].
  - intros _. exists x. split; [left|done].
Qed.

Lemma all_floating_false (c : state_dict Num) :
  all_floating c = false →
  ∃ k t, c !! k = Some t ∧ Torch.dtype_of t = Torch.Integral.
Proof.
  unfold all_floating. intros ([k t] & Hin & Hdt)%forallb_false.
  apply elem_of_map_to_list in Hin. exists k, t. split; [done|].
  simpl in Hdt. by destruct (Torch.dtype_of t).
Qed.

End aggregation_claims.

(** * The claims *)

(** ** Aggregation *)




(** C2, as stated, does not hold: with a minimum of two workers, a round
    with a single update is aggregated all the same. *)
Lemma aggregates_below_quorum :
  (length [update_a2] < 2)%nat ∧
  federated_averaging [update_a2] = Ok update_a2.
Proof. split; [simpl; lia|by apply federated_averaging_one]. Qed.

(** C2, amended.  The only lack of updates on which the aggregation fails is
    their absence: it raises [IndexError] exactly when there is no update at
    all, and it returns a state exactly when there is at least one update and
    every update carries each parameter of the first update with the first
    update's shape, some update in floating point, whatever the number of
    updates. *)
Theorem aggregation_fails_only_without_updates
    {Num : Type} {arith : Torch.Arithmetic Num}
    (client_weights : list (state_dict Num)) :
  (federated_averaging client_weights = Raise IndexError
   ↔ (length client_weights < 1)%nat) ∧
  is_ok (federated_averaging client_weights) = round_ok client_weights.
Proof.
  split; [|apply federated_averaging_is_ok]. split.
  - intros [[-> _]|[_ [?|[k ?]]]]%federated_averaging_raise;
      [simpl; lia|done|done].
  - destruct client_weights; simpl; [done|lia].
Qed.

(** C4, as stated, does not hold for every single update: one that holds an
    integer tensor is refused by [torch.mean]. *)
Lemma integer_singleton_refused :
  federated_averaging [update_counter] = Raise RuntimeError.
Proof. reflexivity. Qed.

(** C4, amended.  A single update whose tensors are all floating point
    aggregates to itself: the aggregated state is that update, tensor for
    tensor.  A single update that holds an integer tensor is refused with
    [RuntimeError]. *)
Theorem federated_averaging_singleton
    {Num : Type} {arith : Torch.Arithmetic Num} (update : state_dict Num) :
  (all_floating update = true → federated_averaging [update] = Ok update) ∧
  (all_floating update = false →
   federated_averaging [update] = Raise RuntimeError).
Proof.
  split.
  - apply federated_averaging_one.
  - intros (k & t & Hk & Hint)%all_floating_false.
    by destruct (federated_averaging_one_integral update k t Hk Hint)
      as (e & -> & ->).
Qed.

Lemma federated_averaging_singleton_witness :
  federated_averaging [update_a2] = Ok update_a2.
Proof.
  apply (proj1 (federated_averaging_singleton update_a2)).
  reflexivity.
Defined.

(** ** Compilation *)

(** C8.  [to_vm_instructions] is a pure, deterministic function of the job:
    it always returns, it leaves the text written so far as it found it, and
    what it returns is the same in any two invocations on the same job. *)
Theorem to_vm_instructions_pure (job : TrainingJob) (out1 out2 : list line) :
  (to_vm_instructions job out1).1 = out1 ∧
  is_ok (to_vm_instructions job out1).2 = true ∧
  (to_vm_instructions job out1).2 = (to_vm_instructions job out2).2.
Proof. by split_and!. Qed.

(** C9, as stated, does not hold.  The demo's transformer job declares 32 GB
    of memory, yet its constraints record carries the default 2048 MB and the
    fixed 300000 ms, exactly as for the same job declaring nothing; and the
    record takes no part in the execution: the job stripped of its envelope
    and requirements has another record and is executed identically. *)
Lemma envelope_not_in_constraints :
  resources (transformer_job "") !! "memory_gb" = Some (PyInt 32) ∧
  (∃ c, compiled_constraints (transformer_job "") = Ok [c] ∧
        max_memory_mb c = PyInt 2048 ∧
        max_execution_time_ms c = 300000 ∧
        compiled_constraints
          (with_envelope (transformer_job "") ∅ (requirements (transformer_job "")))
        = Ok [c]) ∧
  compiled_constraints (with_envelope (transformer_job "") ∅ [])
  ≠ compiled_constraints (transformer_job "") ∧
  ∀ hash self out,
    submit_job hash self (with_envelope (transformer_job "") ∅ []) out
    = submit_job hash self (transformer_job "") out.
Proof.
  split_and!.
  - reflexivity.
  - eexists. split_and!; reflexivity.
  - discriminate.
  - intros hash self out. apply submit_job_envelope.
Qed.

(** C9, amended.  The constraints record of a job is: as maximum memory the
    ["memory_mb"] entry of the job's resources, 2048 when there is none; as
    maximum execution time 300000 ms, whatever the job declares; as allowed
    imports the job's requirements.  The record is not handed to the
    simulated execution: a submission runs identically when the job's
    resources and requirements, hence the record, are replaced. *)
Theorem constraints_of_job (job : TrainingJob) :
  compiled_constraints job
  = Ok [ {| max_memory_mb := dict_get (resources job) "memory_mb" (PyInt 2048);
            max_execution_time_ms := 300000;
            allowed_imports := requirements job |} ] ∧
  ∀ hash self out resources' requirements',
    submit_job hash self (with_envelope job resources' requirements') out
    = submit_job hash self job out.
Proof. split; [reflexivity|]. intros. apply submit_job_envelope. Qed.

(** C3, as stated, does not hold: a job requiring a module that is not on the
    allow-list is compiled, executed and reported as a success. *)
Lemma unlisted_import_accepted :
  ("os" ∈ requirements unlisted_job) ∧
  ("os" ∉ allow_list) ∧
  ∀ hash self out,
    ∃ out' r, submit_job hash self unlisted_job out = (out', Ok r) ∧
      Text "  Executing training..." ∈ out' ∧
      success r = true ∧
      error_message r = None.
Proof.
  split_and!.
  - apply list_elem_of_In. by left.
  - intros H%list_elem_of_In. simpl in H. by destruct H as [H|[H|[]]].
  - intros hash self out. eexists _, _. split.
    + by apply submit_job_runs.
    + split_and!; [|done|done].
      apply elem_of_app. right. unfold submission_output.
      apply elem_of_app. left. repeat constructor.
Qed.

(** C3, amended.  Compilation checks no import: for every job it succeeds and
    copies the requirements, whatever they are, into the allowed imports.
    The execution is then simulated, and for every job on which the
    simulation runs to its end the result has [success = true] and no error
    message. *)
Theorem requirements_never_rejected (hash : string → Z) (self : BCaiClient)
    (job : TrainingJob) (out : list line) :
  epochs_runnable job = true →
  (∃ c, compiled_constraints job = Ok [c] ∧
        allowed_imports c = requirements job) ∧
  ∃ r, submit_job hash self job out = (out ++ submission_output job, Ok r) ∧
    Text "  Executing training..." ∈ submission_output job ∧
    success r = true ∧
    error_message r = None.
Proof.
  intros Hrun. split.
  - eexists. split; reflexivity.
  - eexists. split; [by apply submit_job_runs|].
    split_and!; [|done|done].
    unfold submission_output. apply elem_of_app. left. repeat constructor.
Qed.

Lemma requirements_never_rejected_witness :
  (∃ c, compiled_constraints unlisted_job = Ok [c] ∧
        allowed_imports c = requirements unlisted_job) ∧
  ∃ r, submit_job length_hash local_client unlisted_job []
       = ([] ++ submission_output unlisted_job, Ok r) ∧
    Text "  Executing training..." ∈ submission_output unlisted_job ∧
    success r = true ∧
    error_message r = None.
Proof.
  apply (requirements_never_rejected length_hash local_client unlisted_job []).
  vm_compute. reflexivity.
Defined.

(** ** Submission results *)

(** C10.  Every [JobResult] that [submit_job] returns has [success = true],
    [gas_used = 1000], [model_hash = "abc123def456"] and [reward_earned]
    equal to the job's [reward_tokens]: the first three are constants,
    whatever the job's code, requirements and resources, and the reward
    depends on [reward_tokens] alone.  And [submit_job] does return, for
    every job whose ["epochs"] configuration is absent or an integer below
    the bound of the conversion to [float]. *)
Theorem submit_job_result (hash : string → Z) (self : BCaiClient)
    (job : TrainingJob) (out : list line) :
  (epochs_runnable job = true →
   ∃ r, submit_job hash self job out = (out ++ submission_output job, Ok r)) ∧
  ∀ out' r, submit_job hash self job out = (out', Ok r) →
    success r = true ∧
    gas_used r = 1000 ∧
    model_hash r = Some "abc123def456" ∧
    reward_earned r = reward_tokens job.
Proof.
  split.
  - intros Hrun. eexists. by apply submit_job_runs.
  - intros out' r Hr.
    pose proof (submit_job_returns _ _ _ _ _ _ Hr) as Hrun.
    rewrite (submit_job_runs hash self job out Hrun) in Hr.
    injection Hr as _ <-. done.
Qed.

Lemma submit_job_result_witness :
  ∃ r, submit_job length_hash local_client (transformer_job "") []
       = ([] ++ submission_output (transformer_job ""), Ok r) ∧
    success r = true ∧
    gas_used r = 1000 ∧
    model_hash r = Some "abc123def456" ∧
    reward_earned r = reward_tokens (transformer_job "").
Proof.
  destruct (submit_job_result length_hash local_client (transformer_job "") [])
    as [Hreturns Hfields].
  destruct Hreturns as [r Hr]; [vm_compute; reflexivity|].
  exists r. split; [exact Hr|]. exact (Hfields _ _ Hr).
Defined.

(** ** Settlement *)



(** Three of four rounds charged, 2 units beyond the envelope at rate 2:
    100 * 3/4 - 4 = 71. *)
Example settle_three_of_four :
  Ledger.settle four_round_terms "job_1" three_rounds_charged = Qc_of_Z 71.
Proof. apply Qc_this_eq. by vm_compute. Qed.



(** C7, as stated, does not hold: two different jobs that share a name are
    given the same job id, whatever the hash function. *)
Lemma same_name_same_job_id :
  twin_job_a ≠ twin_job_b ∧
  ∀ hash self out,
    ∃ out1 out2 r1 r2,
      submit_job hash self twin_job_a out = (out1, Ok r1) ∧
      submit_job hash self twin_job_b out = (out2, Ok r2) ∧
      job_id r1 = job_id r2.
Proof.
  split; [discriminate|]. intros hash self out.
  eexists _, _, _, _. split_and!.
  - by apply submit_job_runs.
  - by apply submit_job_runs.
  - reflexivity.
Qed.

(** C7, amended.  The id of a submitted job is ["job_"] followed by the hash
    of the job's name, in decimal: two submitted jobs have the same id exactly
    when their names have the same hash, so two jobs with the same name always
    share their id. *)
Theorem job_id_from_name_hash (hash : string → Z) (self1 self2 : BCaiClient)
    (job1 job2 : TrainingJob) (out1 out2 out1' out2' : list line)
    (r1 r2 : JobResult) :
  submit_job hash self1 job1 out1 = (out1', Ok r1) →
  submit_job hash self2 job2 out2 = (out2', Ok r2) →
  job_id r1 = "job_" +:+ pretty (hash (name job1)) ∧
  (job_id r1 = job_id r2 ↔ hash (name job1) = hash (name job2)) ∧
  (name job1 = name job2 → job_id r1 = job_id r2).
Proof.
  intros H1 H2.
  pose proof (submit_job_returns _ _ _ _ _ _ H1) as Hrun1.
  pose proof (submit_job_returns _ _ _ _ _ _ H2) as Hrun2.
  rewrite (submit_job_runs hash self1 job1 out1 Hrun1) in H1.
  rewrite (submit_job_runs hash self2 job2 out2 Hrun2) in H2.
  injection H1 as _ <-. injection H2 as _ <-. simpl.
  split; [reflexivity|]. split.
  - split.
    + intros H. apply (inj (String.app "job_")) in H.
      by apply (inj pretty) in H.
    + by intros ->.
  - by intros ->.
Qed.

Lemma job_id_from_name_hash_witness :
  job_id (completed_result length_hash twin_job_a)
  = "job_" +:+ pretty (length_hash (name twin_job_a)) ∧
  (job_id (completed_result length_hash twin_job_a)
   = job_id (completed_result length_hash twin_job_b)
   ↔ length_hash (name twin_job_a) = length_hash (name twin_job_b)) ∧
  (name twin_job_a = name twin_job_b →
   job_id (completed_result length_hash twin_job_a)
   = job_id (completed_result length_hash twin_job_b)).
Proof.
  apply (job_id_from_name_hash length_hash local_client local_client
           twin_job_a twin_job_b [] []
           (submission_output twin_job_a) (submission_output twin_job_b)).
  - vm_compute. reflexivity.
  - vm_compute. reflexivity.
Defined.

(** ** The ledger *)

(** A first charge of a round records it, with what it consumed. *)
Lemma ledger_charge_fresh (jid : string) (r : Ledger.RoundRecord)
    (l : Ledger.ledger) :
  Ledger.rounds_of jid l !! Ledger.round_index r = None →
  Ledger.rounds_of jid (Ledger.charge jid r l) !! Ledger.round_index r = Some r ∧
  Ledger.total_consumed jid (Ledger.charge jid r l)
  = Ledger.resource_consumed r + Ledger.total_consumed jid l.
Proof.
  intros Hr. unfold Ledger.charge. rewrite Hr.
  unfold Ledger.total_consumed, Ledger.rounds_of at 1 3.
  rewrite lookup_insert_eq. simpl. split; [by rewrite lookup_insert_eq|].
  rewrite map_fold_insert_L; [done| |done].
  intros j1 j2 z1 z2 y _ _ _. lia.
Qed.

(** C6.  Charging is idempotent per round: after a round of a job has been
    charged, charging the same job again for the same round index, with the
    same record or another one, leaves the ledger as it is. *)
Theorem ledger_charge_idempotent (jid : string) (r r' : Ledger.RoundRecord)
    (l : Ledger.ledger) :
  Ledger.round_index r' = Ledger.round_index r →
  Ledger.charge jid r' (Ledger.charge jid r l) = Ledger.charge jid r l.
Proof.
  intros Hidx. unfold Ledger.charge at 2 3.
  destruct (Ledger.rounds_of jid l !! Ledger.round_index r) as [r0|] eqn:Hr.
  - unfold Ledger.charge. by rewrite Hidx, Hr.
  - unfold Ledger.charge, Ledger.rounds_of at 1.
    rewrite lookup_insert_eq. simpl. by rewrite Hidx, lookup_insert_eq.
Qed.

Lemma ledger_charge_idempotent_witness :
  Ledger.charge "job_1" round0_retry (Ledger.charge "job_1" round0 ∅)
  = Ledger.charge "job_1" round0 ∅.
Proof.
  apply (ledger_charge_idempotent "job_1" round0 round0_retry ∅).
  reflexivity.
Defined.

(** * Further properties of the code *)

(** ** Aggregation: names, failures, what is read *)

Section aggregation_extras.

Context {Num : Type} {arith : Torch.Arithmetic Num}.

Lemma mean_dim0_raise_cause (rows : list (Torch.tensor Num)) (e : exn) :
  rows ≠ [] → Torch.mean_dim0 rows = Raise e →
  Forall (λ r, Torch.dtype_of r = Torch.Integral) rows.
Proof.
  intros Hne. unfold Torch.mean_dim0. destruct rows as [|r0 rows]; [done|].
  destruct (Torch.stacked_dtype (r0 :: rows)) eqn:Hdt; [done|].
  intros _. by apply stacked_dtype_integral.
Qed.

Lemma restrict_to_lookup (first c : state_dict Num) (k : string) :
  is_Some (first !! k) → restrict_to first c !! k = c !! k.
Proof.
  intros Hk. unfold restrict_to.
  destruct (c !! k) as [t|] eqn:Hc.
  - by apply map_lookup_filter_Some.
  - apply map_lookup_filter_None. by left.
Qed.

(** X1.  The aggregate has exactly the parameter names of the first client:
    whatever further parameters other clients carry is left out.  This is
    for updates that aggregate: every client has each parameter of the first
    in the first's shape, and for each of them some client holds it in
    floating point. *)
Theorem federated_averaging_names (first : state_dict Num)
    (rest : list (state_dict Num)) :
  round_ok (first :: rest) = true →
  ∃ m, federated_averaging (first :: rest) = Ok m ∧ dom m = dom first.
Proof.
  intros Hok. destruct (federated_averaging_ok first rest Hok) as (m & Hm & Hlook).
  exists m. split; [done|]. apply set_eq. intros k.
  rewrite !elem_of_dom, Hlook. by rewrite fmap_is_Some.
Qed.

(** X2.  A failure of the aggregation names its cause.  [KeyError k] means
    that [k] is a parameter of the first client that some later client does
    not have.  [RuntimeError] means that, for some parameter of the first
    client that all clients have, either some later client holds a tensor of
    another shape ([torch.stack] refuses), or all clients hold an integer
    tensor ([torch.mean] refuses). *)
Theorem federated_averaging_failure_cause (first : state_dict Num)
    (rest : list (state_dict Num)) (e : exn) :
  federated_averaging (first :: rest) = Raise e →
  (∃ k c, e = KeyError k ∧ is_Some (first !! k) ∧ c ∈ rest ∧ c !! k = None) ∨
  (e = RuntimeError ∧
   ∃ k t0, first !! k = Some t0 ∧
     Forall (λ c, is_Some (c !! k)) rest ∧
     ((∃ c t, c ∈ rest ∧ c !! k = Some t ∧
              Torch.shape t ≠ Torch.shape t0) ∨
      (∀ c, c ∈ first :: rest →
            ∃ t, c !! k = Some t ∧ Torch.dtype_of t = Torch.Integral))).
Proof.
  unfold federated_averaging.
  intros (k & Hk & Hbody)%for_param_names_raise.
  apply list_elem_of_fmap in Hk as ([k' t0] & -> & Hin).
  apply elem_of_map_to_list in Hin. cbn [fst] in Hbody.
  unfold average_param in Hbody.
  destruct (gather (first :: rest) k') as [ts|e'] eqn:Hg.
  - right. destruct (gather_inv _ _ _ Hg) as [-> Hall].
    change ((Torch.stack (params k' (first :: rest)) ≫= Torch.mean_dim0)
            = Raise e) in Hbody.
    assert (params k' (first :: rest) = t0 :: params k' rest) as Hparams
      by (unfold params; simpl; by rewrite Hin).
    rewrite Hparams in Hbody.
    assert (Forall (λ c, is_Some (c !! k')) rest) as Hrest
      by (by apply Forall_cons in Hall as [_ ?]).
    destruct (Torch.stack (t0 :: params k' rest)) as [st|e'] eqn:Hst.
    + destruct (stack_inv _ _ Hst) as [-> _].
      change (Torch.mean_dim0 (t0 :: params k' rest) = Raise e) in Hbody.
      pose proof (mean_dim0_raise _ _ Hbody) as ->.
      apply mean_dim0_raise_cause in Hbody; [|done].
      split; [done|]. exists k', t0. split_and!; [done|done|]. right.
      intros c Hc. rewrite Forall_forall in Hall.
      destruct (Hall c Hc) as [t Ht]. exists t. split; [done|].
      rewrite Forall_forall in Hbody. apply Hbody.
      rewrite <- Hparams. apply params_elem. by exists c.
    + change (@Raise (Torch.tensor Num) e' = Raise e) in Hbody.
      injection Hbody as <-.
      apply stack_raise_cause in Hst as (-> & t & Ht & Hne).
      split; [done|]. exists k', t0. split_and!; [done|done|]. left.
      apply params_elem in Ht as (c & Hc & Hct). by exists c, t.
  - left. change (@Raise (Torch.tensor Num) e' = Raise e) in Hbody.
    injection Hbody as <-.
    apply gather_raise_cause in Hg as (-> & c & Hc & Hnone).
    exists k', c. split_and!; [done|by rewrite Hin| |done].
    apply elem_of_cons in Hc as [->|Hc]; [congruence|done].
Qed.

(** X3.  Only the parameters named by the first client are ever read: the
    outcome, success or failure, is the same when every later client is cut
    down to those names. *)
Theorem federated_averaging_reads_first_names (first : state_dict Num)
    (rest : list (state_dict Num)) :
  federated_averaging (first :: (restrict_to first <$> rest))
  = federated_averaging (first :: rest).
Proof.
  unfold federated_averaging. apply for_param_names_ext.
  intros k Hk. apply list_elem_of_fmap in Hk as ([k' t0] & -> & Hin).
  apply elem_of_map_to_list in Hin. simpl.
  unfold average_param. f_equal. apply gather_ext.
  constructor; [done|]. apply Forall2_fmap_l, Forall_Forall2_diag.
  apply Forall_forall. intros c _. by apply restrict_to_lookup.
Qed.

End aggregation_extras.

Lemma federated_averaging_names_witness :
  ∃ m, federated_averaging [update_a2; update_a4_b1] = Ok m ∧
       dom m = dom update_a2.
Proof.
  apply (federated_averaging_names update_a2 [update_a4_b1]).
  vm_compute. reflexivity.
Defined.

(** A later client without the parameter; a later client with another shape;
    an integer parameter. *)
Example scenario_missing_parameter :
  federated_averaging [update_a2; update_none] = Raise (KeyError "a").
Proof. vm_compute. reflexivity. Qed.

Example scenario_other_shape :
  federated_averaging [update_a2; update_a_vector] = Raise RuntimeError.
Proof. vm_compute. reflexivity. Qed.

Example scenario_integer_parameter :
  federated_averaging [update_counter; update_counter] = Raise RuntimeError.
Proof. vm_compute. reflexivity. Qed.

Lemma federated_averaging_failure_cause_witness :
  (∃ k c, RuntimeError = KeyError k ∧ is_Some (update_counter !! k) ∧
          c ∈ [update_counter] ∧ c !! k = None) ∨
  (RuntimeError = RuntimeError ∧
   ∃ k t0, update_counter !! k = Some t0 ∧
     Forall (λ c, is_Some (c !! k)) [update_counter] ∧
     ((∃ c t, c ∈ [update_counter] ∧ c !! k = Some t ∧
              Torch.shape t ≠ Torch.shape t0) ∨
      (∀ c, c ∈ [update_counter; update_counter] →
            ∃ t, c !! k = Some t ∧ Torch.dtype_of t = Torch.Integral))).
Proof.
  apply (federated_averaging_failure_cause update_counter [update_counter]
           RuntimeError).
  vm_compute. reflexivity.
Defined.

(** ** Submission: what is read, what is printed, how it fails *)

(** X7.  A submission reads three things of the job and nothing else: its
    name, its ["epochs"] configuration and its reward budget.  Two jobs that
    agree on these are submitted identically, whatever their code, data
    source, requirements, resources and remaining configuration, and
    whichever client submits them. *)
Theorem submit_job_reads (hash : string → Z) (self1 self2 : BCaiClient)
    (job1 job2 : TrainingJob) (out : list line) :
  name job1 = name job2 →
  epochs_value job1 = epochs_value job2 →
  reward_tokens job1 = reward_tokens job2 →
  submit_job hash self1 job1 out = submit_job hash self2 job2 out.
Proof.
  intros Hname Hepochs Hreward.
  unfold submit_job, _simulate_job_execution.
  change (dict_get (config job1) "epochs" (PyInt 10)) with (epochs_value job1).
  change (dict_get (config job2) "epochs" (PyInt 10)) with (epochs_value job2).
  by rewrite Hname, Hepochs, Hreward.
Qed.

Lemma submit_job_reads_witness :
  submit_job length_hash local_client twin_job_a []
  = submit_job length_hash
      {| node_url := "ws://elsewhere:1"; session_id := Some "s" |}
      (with_envelope
         {| name := "twin"; code := "y = 3"; data_source := "local://c";
            requirements := []; resources := ∅; reward_tokens := 10;
            config := {[ "batch_size" := PyInt 4 ]} |}
         {[ "memory_mb" := PyInt 1 ]} ["scipy"])
      [].
Proof.
  apply (submit_job_reads length_hash local_client).
  - reflexivity.
  - reflexivity.
  - reflexivity.
Defined.

Lemma for_each_app {A} (xs ys : list A) (body : A → io unit) (out : list line) :
  for_each (xs ++ ys) body out
  = (for_each xs body ;; for_each ys body) out.
Proof.
  revert out. induction xs as [|x xs IH]; intros out; [done|].
  simpl. unfold mbind, io_bind. destruct (body x out) as [out' [[]|e]]; [|done].
  rewrite IH. done.
Qed.

Lemma for_each_cons {A} (x : A) (xs : list A) (body : A → io unit)
    (out : list line) :
  for_each (x :: xs) body out = (body x ;; for_each xs body) out.
Proof. reflexivity. Qed.

Lemma for_each_report_overflow (z : Z) (out : list line) :
  float_int_limit ≤ z →
  for_each (seqZ 1 z) report_epoch out
  = (out ++ (EpochProgress <$> seqZ 1 (float_int_limit - 1)),
     Raise OverflowError).
Proof.
  intros Hz. pose proof float_int_limit_pos as Hpos.
  replace z with ((float_int_limit - 1) + (z - (float_int_limit - 1))) by lia.
  rewrite seqZ_app by lia. rewrite for_each_app.
  rewrite (io_bind_ok _ _ _ _ _
             (for_each_report_ok _ out
                (seqZ_below (float_int_limit - 1) ltac:(lia)))).
  rewrite seqZ_cons by lia. rewrite for_each_cons.
  apply io_bind_raise, report_epoch_raise. lia.
Qed.

Lemma submit_job_not_integer (hash : string → Z) (self : BCaiClient)
    (job : TrainingJob) (out : list line) :
  epochs_not_integer job = true →
  submit_job hash self job out = (out ++ submission_header job, Raise TypeError).
Proof.
  unfold epochs_not_integer, submit_job, _simulate_job_execution.
  change (dict_get (config job) "epochs" (PyInt 10)) with (epochs_value job).
  intros Hbad.
  unfold mbind at 1, io_bind, print at 1.
  unfold mbind at 1, io_bind, to_vm_instructions, mret at 1, io_ret at 1.
  unfold mbind at 1 2 3 4, io_bind, print at 1 2 3. simpl.
  destruct (epochs_value job) as [|b|z|q|s]; try done; simpl;
    by rewrite <- !app_assoc.
Qed.

(** X8.  A job whose ["epochs"] is not an integer ([None], text, a float)
    fails with [TypeError] after it has been announced, declared validated
    and started: exactly the four opening lines are printed, no training pass
    and no completion line. *)
Theorem submit_job_type_error (hash : string → Z) (self : BCaiClient)
    (job : TrainingJob) (out : list line) :
  epochs_not_integer job = true →
  submit_job hash self job out = (out ++ submission_header job, Raise TypeError).
Proof. apply submit_job_not_integer. Qed.

Lemma submit_job_type_error_witness :
  submit_job length_hash local_client text_epochs_job []
  = ([] ++ submission_header text_epochs_job, Raise TypeError).
Proof.
  apply (submit_job_type_error length_hash local_client text_epochs_job []).
  reflexivity.
Defined.

Lemma submit_job_too_many_epochs (hash : string → Z) (self : BCaiClient)
    (job : TrainingJob) (out : list line) (z : Z) :
  epochs_value job = PyInt z →
  float_int_limit ≤ z →
  submit_job hash self job out
  = (out ++ submission_header job
         ++ (EpochProgress <$> seqZ 1 (float_int_limit - 1)),
     Raise OverflowError).
Proof.
  intros Hepochs Hz.
  pose proof (λ out', for_each_report_overflow z out' Hz) as Hloop.
  set (reported := EpochProgress <$> seqZ 1 (float_int_limit - 1)) in *.
  clearbody reported.
  unfold submit_job, _simulate_job_execution.
  change (dict_get (config job) "epochs" (PyInt 10)) with (epochs_value job).
  rewrite Hepochs.
  unfold mbind at 1, io_bind, print at 1.
  unfold mbind at 1, io_bind, to_vm_instructions, mret at 1, io_ret at 1.
  unfold mbind at 1 2 3 4, io_bind, print at 1 2 3. simpl.
  unfold mbind at 1, io_bind, lift at 1, py_range. simpl.
  replace (z + 1 - 1) with z by lia.
  unfold mbind at 1 2, io_bind, lift.
  rewrite Hloop.
  by rewrite <- !app_assoc.
Qed.

(** X9.  A job that asks for at least [2^1024 - 2^970] epochs fails with
    [OverflowError]: the passes below that bound are reported, then the
    conversion of the epoch number to [float] raises, and no completion line
    is printed. *)
Theorem submit_job_overflow (hash : string → Z) (self : BCaiClient)
    (job : TrainingJob) (out : list line) (z : Z) :
  epochs_value job = PyInt z →
  float_int_limit ≤ z →
  submit_job hash self job out
  = (out ++ submission_header job
         ++ (EpochProgress <$> seqZ 1 (float_int_limit - 1)),
     Raise OverflowError).
Proof. apply submit_job_too_many_epochs. Qed.

Lemma submit_job_overflow_witness :
  submit_job length_hash local_client huge_epochs_job []
  = ([] ++ submission_header huge_epochs_job
        ++ (EpochProgress <$> seqZ 1 (float_int_limit - 1)),
     Raise OverflowError).
Proof.
  apply (submit_job_overflow length_hash local_client huge_epochs_job []
           (2 ^ 1024)).
  - reflexivity.
  - by vm_compute.
Defined.




(** X12.  The metrics of a completed submission do not depend on the
    training: they have the four keys [final_loss], [accuracy], [epochs] and
    [execution_time_ms]; loss, accuracy and execution time are the constants
    0.15, 0.92 and 5000, and [epochs] repeats the job's configuration, 10
    when the job configures none. *)
Theorem submit_job_metrics (hash : string → Z) (self : BCaiClient)
    (job : TrainingJob) (out : list line) :
  epochs_runnable job = true →
  ∃ r, submit_job hash self job out = (out ++ submission_output job, Ok r) ∧
    dom (training_metrics r)
    = {[ "final_loss"; "accuracy"; "epochs"; "execution_time_ms" ]} ∧
    training_metrics r !! "final_loss" = Some (PyFloat (15 # 100)) ∧
    training_metrics r !! "accuracy" = Some (PyFloat (92 # 100)) ∧
    training_metrics r !! "execution_time_ms" = Some (PyInt 5000) ∧
    training_metrics r !! "epochs"
    = Some (default (PyInt 10) (config job !! "epochs")).
Proof.
  intros Hrun. exists (completed_result hash job).
  split; [by apply submit_job_runs|]. simpl. by split_and!.
Qed.

Lemma submit_job_metrics_witness :
  ∃ r, submit_job length_hash local_client unlisted_job []
       = ([] ++ submission_output unlisted_job, Ok r) ∧
    dom (training_metrics r)
    = {[ "final_loss"; "accuracy"; "epochs"; "execution_time_ms" ]} ∧
    training_metrics r !! "final_loss" = Some (PyFloat (15 # 100)) ∧
    training_metrics r !! "accuracy" = Some (PyFloat (92 # 100)) ∧
    training_metrics r !! "execution_time_ms" = Some (PyInt 5000) ∧
    training_metrics r !! "epochs"
    = Some (default (PyInt 10) (config unlisted_job !! "epochs")).
Proof.
  apply (submit_job_metrics length_hash local_client unlisted_job []).
  vm_compute. reflexivity.
Defined.

(** X13.  The text shown for the result of any completed submission is
    [JobResult(id=job_<hash of the name>, status=SUCCESS, accuracy=<0.92>)]:
    it never shows [FAILED] nor [N/A]. *)
Theorem submit_job_repr (float_str : Q → string) (hash : string → Z)
    (self : BCaiClient) (job : TrainingJob) (out : list line) :
  epochs_runnable job = true →
  ∃ r, submit_job hash self job out = (out ++ submission_output job, Ok r) ∧
    JobResult_repr float_str r
    = "JobResult(id=job_" +:+ pretty (hash (name job))
      +:+ ", status=SUCCESS, accuracy=" +:+ float_str (92 # 100) +:+ ")".
Proof.
  intros Hrun. exists (completed_result hash job).
  split; [by apply submit_job_runs|].
  unfold JobResult_repr, completed_result, dict_get. simpl.
  rewrite lookup_insert_ne by done. rewrite lookup_insert_eq. reflexivity.
Qed.

Lemma submit_job_repr_witness :
  ∃ r, submit_job length_hash local_client unlisted_job []
       = ([] ++ submission_output unlisted_job, Ok r) ∧
    JobResult_repr ratio_str r
    = "JobResult(id=job_" +:+ pretty (length_hash (name unlisted_job))
      +:+ ", status=SUCCESS, accuracy=" +:+ ratio_str (92 # 100) +:+ ")".
Proof.
  apply (submit_job_repr ratio_str length_hash local_client unlisted_job []).
  vm_compute. reflexivity.
Defined.

(** ** The federated rounds *)

Section federated_run_facts.

Context {Num : Type} {arith : Torch.Arithmetic Num}.

Variable client : Type.
Variable initial_client : nat → client.
Variable initial_weights : state_dict Num.
Variable local_training :
  client → state_dict Num → nat → result (client * state_dict Num).
Variable fixed3 : Q → string.

Lemma same_topology_lookup (w g : state_dict Num) (k : string)
    (t : Torch.tensor Num) :
  same_topology w g → all_floating g = true → w !! k = Some t →
  ∃ tg, g !! k = Some tg ∧ Torch.shape t = Torch.shape tg ∧
        Torch.dtype_of t = Torch.Floating.
Proof.
  intros Hw Hfl Hk. specialize (Hw k). rewrite Hk in Hw.
  destruct (g !! k) as [tg|] eqn:Hg; [|done]. injection Hw as Hdt Hsh.
  exists tg. split_and!; [done|done|].
  rewrite Hdt. by eapply all_floating_lookup.
Qed.

Lemma same_topology_round_ok (g : state_dict Num)
    (updates : list (state_dict Num)) :
  all_floating g = true →
  updates ≠ [] → Forall (λ w, same_topology w g) updates →
  round_ok updates = true.
Proof.
  intros Hfl Hne Hall. destruct updates as [|first rest]; [done|].
  unfold round_ok. apply forallb_forall. intros [k t] Hin.
  apply list_elem_of_In, elem_of_map_to_list in Hin. cbn [fst snd].
  rewrite Forall_forall in Hall.
  destruct (same_topology_lookup first g k t) as (tg & Hg & Hsh & Hdt);
    [apply Hall; left|done|done|].
  unfold average_ok. apply andb_true_iff. split.
  - apply forallb_forall. intros c Hc. apply list_elem_of_In in Hc.
    apply has_param_shape.
    pose proof (Hall c Hc k) as Hck. rewrite Hg in Hck.
    destruct (c !! k) as [u|]; [|done]. injection Hck as _ Hu.
    exists u. split; [done|]. congruence.
  - apply existsb_exists. exists first. split; [by left|].
    apply param_floating_dtype. by exists t.
Qed.

(** Floating-point updates of one topology aggregate to a state of that
    topology. *)
Lemma federated_averaging_topology (g : state_dict Num)
    (updates : list (state_dict Num)) :
  all_floating g = true →
  updates ≠ [] → Forall (λ w, same_topology w g) updates →
  ∃ g', federated_averaging updates = Ok g' ∧ same_topology g' g.
Proof.
  intros Hfl Hne Hall.
  pose proof (same_topology_round_ok g updates Hfl Hne Hall) as Hok.
  destruct updates as [|first rest]; [done|].
  destruct (federated_averaging_ok first rest Hok) as (m & Hm & Hlook).
  exists m. split; [done|]. intros k. rewrite Hlook.
  rewrite Forall_forall in Hall.
  pose proof (Hall first ltac:(left)) as Hfirst.
  rewrite <- (Hfirst k).
  destruct (first !! k) as [t0|] eqn:Hk; [|done].
  destruct (same_topology_lookup first g k t0 Hfirst Hfl Hk)
    as (_ & _ & _ & Hdt).
  simpl. by rewrite Hdt.
Qed.

Lemma collect_updates_ok (P : state_dict Num → Prop) (g : state_dict Num) :
  (∀ c, ∃ c' w, local_training c g 3 = Ok (c', w) ∧ P w) →
  ∀ clients i out, ∃ clients' updates,
    collect_updates client local_training i clients g out
    = (out ++ (client_line <$> seq i (length clients)), Ok (clients', updates)) ∧
    length clients' = length clients ∧
    length updates = length clients ∧
    Forall P updates.
Proof.
  intros Htrain. induction clients as [|c rest IH]; intros i out.
  - exists [], []. simpl. unfold mret, io_ret. by rewrite app_nil_r.
  - destruct (Htrain c) as (c' & w & Hc & Hw).
    destruct (IH (S i) (out ++ [client_line i])) as (cl & up & Hrun & Hlc & Hlu & HP).
    exists (c' :: cl), (w :: up). simpl.
    unfold mbind at 1, io_bind, lift. rewrite Hc.
    unfold mbind at 1, io_bind, print.
    unfold mbind at 1, io_bind.
    change (Text ("  Client " +:+ pretty (i + 1)%nat
                  +:+ " completed local training")) with (client_line i).
    rewrite Hrun. unfold mret, io_ret. simpl.
    rewrite <- app_assoc. split_and!; [done|by rewrite Hlc|by rewrite Hlu|].
    by constructor.
Qed.

Lemma collect_updates_raise (g : state_dict Num) (e : exn) (c : client)
    (before after : list client) :
  (∀ c0, c0 ∈ before → ∃ c' w, local_training c0 g 3 = Ok (c', w)) →
  local_training c g 3 = Raise e →
  ∀ i out,
    collect_updates client local_training i (before ++ c :: after) g out
    = (out ++ (client_line <$> seq i (length before)), Raise e).
Proof.
  intros Hbefore Hc. induction before as [|c0 before IH]; intros i out.
  - simpl. unfold mbind at 1, io_bind, lift. rewrite Hc. by rewrite app_nil_r.
  - destruct (Hbefore c0 ltac:(left)) as (c' & w & Hc0).
    simpl. unfold mbind at 1, io_bind, lift. rewrite Hc0.
    unfold mbind at 1, io_bind, print.
    unfold mbind at 1, io_bind.
    change (Text ("  Client " +:+ pretty (i + 1)%nat
                  +:+ " completed local training")) with (client_line i).
    rewrite IH by (intros c1 Hc1; apply Hbefore; by right).
    by rewrite <- app_assoc.
Qed.

(** One round, when training keeps a property [P] of the updates from which
    the aggregation succeeds with a property [Q] of the aggregate. *)
Lemma federated_round_ok (P Q : state_dict Num → Prop) (num_rounds round_num : nat)
    (clients : list client) (g : state_dict Num) (out : list line) :
  clients ≠ [] →
  (∀ c, ∃ c' w, local_training c g 3 = Ok (c', w) ∧ P w) →
  (∀ updates, updates ≠ [] → Forall P updates →
     ∃ g', federated_averaging updates = Ok g' ∧ Q g') →
  ∃ clients' g' lines,
    federated_round client local_training fixed3 num_rounds round_num
      (clients, g) out
    = (out ++ lines, Ok (clients', g')) ∧
    length clients' = length clients ∧
    length lines = (length clients + 3)%nat ∧
    Q g'.
Proof.
  intros Hne Htrain Hagg.
  destruct (collect_updates_ok P g Htrain clients 0
              (out ++ [Text (String newline
                               ("Round " +:+ pretty (round_num + 1)%nat
                                +:+ "/" +:+ pretty num_rounds))]))
    as (cl & up & Hrun & Hlc & Hlu & HP).
  destruct (Hagg up) as (g' & Hg' & HQ); [by destruct up, clients|done|].
  eexists cl, g', _. unfold federated_round.
  unfold mbind at 1, io_bind, print at 1.
  unfold mbind at 1, io_bind. simpl fst. simpl snd. rewrite Hrun.
  unfold mbind at 1, io_bind, lift. simpl snd. rewrite Hg'.
  unfold mbind, io_bind, print, mret, io_ret. simpl fst.
  rewrite <- !app_assoc. split_and!; [reflexivity|done| |done].
  rewrite !length_app, length_fmap, length_seq. simpl. lia.
Qed.

Lemma for_rounds_ok (Inv : nat → state_dict Num → Prop) (num_rounds : nat) :
  (∀ i round_num clients g out, clients ≠ [] → Inv i g →
     ∃ clients' g' lines,
       federated_round client local_training fixed3 num_rounds round_num
         (clients, g) out
       = (out ++ lines, Ok (clients', g')) ∧
       length clients' = length clients ∧
       length lines = (length clients + 3)%nat ∧
       Inv (S i) g') →
  ∀ rounds i clients g out, clients ≠ [] → Inv i g →
    ∃ clients' g' lines,
      for_rounds client local_training fixed3 num_rounds rounds
        (clients, g) out
      = (out ++ lines, Ok (clients', g')) ∧
      length lines = (length rounds * (length clients + 3))%nat ∧
      Inv (length rounds + i)%nat g'.
Proof.
  intros Hround. induction rounds as [|r rounds IH]; intros i clients g out Hne Hinv.
  - exists clients, g, []. simpl. unfold mret, io_ret. by rewrite app_nil_r.
  - destruct (Hround i r clients g out Hne Hinv)
      as (cl & g1 & lines1 & Hrun1 & Hlc & Hll & Hinv1).
    destruct (IH (S i) cl g1 (out ++ lines1)) as (cl' & g' & lines & Hrun & Hlen & Hinv');
      [by destruct cl, clients|done|].
    exists cl', g', (lines1 ++ lines). simpl for_rounds.
    unfold mbind at 1, io_bind. rewrite Hrun1, Hrun.
    rewrite <- app_assoc. split_and!; [done| |].
    + rewrite length_app, Hll, Hlen, Hlc. simpl. lia.
    + by replace (length (r :: rounds) + i)%nat with (length rounds + S i)%nat
        by (simpl; lia).
Qed.

(** X14.  The run keeps the topology of the global model.  When the initial
    weights are all floating point (the demo's model has linear layers only)
    and local training, given weights of the initial topology (names, element
    types, shapes), returns weights of that topology, all ten rounds
    aggregate, the final weights have the initial topology, and the run makes
    81 calls of [print]: one for the opening line and, in each round, one for
    the heading (whose text starts with a line break, so that it shows as an
    empty line and the heading), five for the clients and two to close the
    round. *)
Theorem run_federated_learning_topology (out : list line) :
  all_floating initial_weights = true →
  (∀ c g, same_topology g initial_weights →
     ∃ c' w, local_training c g 3 = Ok (c', w) ∧
             same_topology w initial_weights) →
  ∃ lines final,
    run_federated_learning client initial_client initial_weights
      local_training fixed3 out
    = (out ++ lines, Ok final) ∧
    length lines = 81%nat ∧
    same_topology final initial_weights.
Proof.
  intros Hfl Htrain. unfold run_federated_learning.
  destruct (for_rounds_ok (λ _ g, same_topology g initial_weights) 10)
    with (rounds := seq 0 10) (i := 0%nat)
         (clients := initial_client <$> seq 0 5) (g := initial_weights)
         (out := out ++ [Text ("Starting federated learning with "
                               +:+ pretty 5%nat +:+ " clients...")])
    as (cl & final & lines & Hrun & Hlen & Hfinal); [|done|done|].
  { intros i r clients g out' Hne Hg.
    apply (federated_round_ok (λ w, same_topology w initial_weights)
             (λ w, same_topology w initial_weights)); [done| |].
    - intros c. by apply Htrain.
    - intros updates Hup Hall. by apply federated_averaging_topology. }
  eexists _, final.
  unfold mbind at 1, io_bind, print.
  unfold mbind at 1, io_bind. rewrite Hrun. unfold mret, io_ret. simpl snd.
  rewrite <- app_assoc. split_and!; [reflexivity| |done].
  rewrite length_app, Hlen. reflexivity.
Qed.

(** X16.  No failure of a client is absorbed: if, in the first round, the
    clients before client [k] train and client [k] raises, the run raises
    that exception at once, having printed the opening line, the heading of
    round 1 and one line per client trained; nothing is aggregated. *)
Theorem run_federated_learning_client_failure (k : nat) (e : exn)
    (out : list line) :
  (k < 5)%nat →
  (∀ j, (j < k)%nat →
     ∃ c' w, local_training (initial_client j) initial_weights 3 = Ok (c', w)) →
  local_training (initial_client k) initial_weights 3 = Raise e →
  run_federated_learning client initial_client initial_weights
    local_training fixed3 out
  = (out ++ [ Text "Starting federated learning with 5 clients...";
              Text (String newline "Round 1/10") ]
         ++ (client_line <$> seq 0 k),
     Raise e).
Proof.
  intros Hk Hbefore Hraise. unfold run_federated_learning.
  assert (initial_client <$> seq 0 5
          = (initial_client <$> seq 0 k)
            ++ initial_client k :: (initial_client <$> seq (S k) (5 - S k)))
    as Hsplit.
  { replace 5%nat with (k + S (5 - S k))%nat at 1 by lia.
    rewrite seq_app, fmap_app. simpl. done. }
  rewrite Hsplit.
  remember ((initial_client <$> seq 0 k)
            ++ initial_client k :: (initial_client <$> seq (S k) (5 - S k)))
    as clients eqn:Hclients.
  unfold mbind at 1, io_bind, print.
  unfold mbind at 1, io_bind. simpl for_rounds.
  unfold mbind at 1, io_bind. unfold federated_round.
  unfold mbind at 1, io_bind, print at 1.
  unfold mbind at 1, io_bind. simpl fst. simpl snd.
  rewrite Hclients.
  rewrite (collect_updates_raise initial_weights e (initial_client k)); [| |done].
  - rewrite length_fmap, length_seq. by rewrite <- !app_assoc.
  - intros c0 (j & -> & Hj)%list_elem_of_fmap.
    apply elem_of_seq in Hj. apply Hbefore. lia.
Qed.

End federated_run_facts.

Lemma run_federated_learning_topology_witness :
  ∃ lines final,
    run_federated_learning nat id update_a2 echo_training ratio_str []
    = ([] ++ lines, Ok final) ∧
    length lines = 81%nat ∧
    same_topology final update_a2.
Proof.
  apply (run_federated_learning_topology nat id update_a2 echo_training
           ratio_str []).
  - vm_compute. reflexivity.
  - intros c g Hg. exists (S c), g. split; [reflexivity|done].
Defined.

(** The demo's run on the stand-ins: the text of the first heading. *)
Example run_federated_learning_heading :
  (run_federated_learning nat id update_a2 echo_training ratio_str []).1 !! 1%nat
  = Some (Text (String newline "Round 1/10")).
Proof. vm_compute. reflexivity. Qed.

Lemma run_federated_learning_client_failure_witness :
  run_federated_learning nat id update_a2 failing_training ratio_str []
  = ([] ++ [ Text "Starting federated learning with 5 clients...";
             Text (String newline "Round 1/10") ]
        ++ (client_line <$> seq 0 2),
     Raise RuntimeError).
Proof.
  apply (run_federated_learning_client_failure nat id update_a2
           failing_training ratio_str 2 RuntimeError []).
  - lia.
  - intros j Hj. exists j, update_a2. unfold failing_training.
    destruct j as [|[|j]]; [reflexivity|reflexivity|lia].
  - reflexivity.
Defined.
